(** * tmuxp.window: a shallow embedding of [src/tmuxp/window.py]

    [Window] is a thin wrapper around the [tmux] command line: every
    method formats an argument list, hands it to [server.tmux], and parses
    the lines that come back.  The embedding keeps that shape:

    - Python values, exceptions, string splitting and dictionaries live
      in [Py];
    - the classes that [window.py] imports but does not define ([Session],
      [Server], [Pane], the mapping mix-in of [util], [formats]) and the
      builtins [str.isdigit], [int] and [str] are the fields of the class
      [Collaborators];
    - the methods of [Window] are written in a state-and-exception monad
      whose state is the outside world together with the trace of the
      calls the method itself made on the server object.

    [__repr__] only formats what the mapping mix-in returns and is left
    out; the row lookup [_TMUX] reads [server._windows], for which the
    class [WindowRows] adds a field. *)

From Stdlib Require Import ZArith String Ascii List Bool Lia.
From stdpp Require Import base gmap strings list pretty.

Local Open Scope string_scope.
Local Open Scope list_scope.

(** ** Python values and builtins *)

Module Py.

(** The values that flow through [window.py]: [None], booleans, integers
    and strings.  A string is the sequence of bytes of its UTF-8
    encoding: splitting on the space or the tab, concatenation and
    comparison act on the encoding as they act on the text. *)
Inductive pyval : Type :=
| PNone
| PBool (b : bool)
| PInt (n : Z)
| PStr (s : string).

#[global] Instance pyval_eq_dec : EqDecision pyval.
Proof. solve_decision. Defined.

(** Dictionaries with string keys, as [dict] and [**kwargs] have them. *)
Abbreviation dict := (gmap string pyval).

(** [bool(v)] *)
Definition truthy (v : pyval) : bool :=
  match v with
  | PNone => false
  | PBool b => b
  | PInt n => negb (n =? 0)%Z
  | PStr s => negb (String.eqb s "")
  end.

(** ['%s' % v] *)
Definition py_str (v : pyval) : string :=
  match v with
  | PNone => "None"
  | PBool true => "True"
  | PBool false => "False"
  | PInt n => pretty n
  | PStr s => s
  end.

(** [a == b]: booleans compare as the integers 1 and 0. *)
Definition py_eq (a b : pyval) : bool :=
  match a, b with
  | PNone, PNone => true
  | PStr s, PStr t => String.eqb s t
  | PBool x, PBool y => Bool.eqb x y
  | PBool x, PInt n | PInt n, PBool x => (Z.b2z x =? n)%Z
  | PInt n, PInt m => (n =? m)%Z
  | _, _ => false
  end.

(** The tab character, and ['\t'] *)
Definition tab_char : ascii := "009"%char.
Definition tab : string := String tab_char EmptyString.

(** [s.split(sep)] for a one-character separator: every occurrence of
    [sep] ends a field, so the result is never empty and adjacent
    separators give empty fields. *)
Fixpoint split (sep : ascii) (s : string) : list string :=
  match s with
  | EmptyString => [EmptyString]
  | String c s' =>
      if Ascii.eqb c sep then EmptyString :: split sep s'
      else match split sep s' with
           | w :: ws => String c w :: ws
           | [] => [String c EmptyString]
           end
  end.

(** [c in s] for a character [c] *)
Fixpoint occurs (c : ascii) (s : string) : bool :=
  match s with
  | EmptyString => false
  | String c' s' => Ascii.eqb c' c || occurs c s'
  end.

(** [''.join(l)] *)
Definition join (l : list string) : string :=
  fold_right String.append EmptyString l.

(** [dict(zip(keys, values))]: pairs are inserted from left to right, so
    for a repeated key the last pair wins; [zip] stops at the shorter
    list. *)
Fixpoint dict_zip (keys : list string) (values : list string) (d : dict) : dict :=
  match keys, values with
  | k :: keys', v :: values' => dict_zip keys' values' (<[k := PStr v]> d)
  | _, _ => d
  end.

(** What a subprocess wrote on standard error: the code accepts a string
    or a list of lines. *)
Inductive errout : Type :=
| ErrStr (s : string)
| ErrLines (l : list string).

(** [bool(process.stderr)] *)
Definition err_truthy (e : errout) : bool :=
  match e with
  | ErrStr s => negb (String.eqb s "")
  | ErrLines l => negb (Nat.eqb (length l) 0)
  end.

(** The object [server.tmux(...)] returns. *)
Record Process : Type := { stdout : list string; stderr : errout }.

(** What is raised.  [ValueError], [IndexError], [KeyError] and the
    exceptions [OtherError] stands for are instances of subclasses of
    [Exception]; [Exception arg] is an instance of [Exception] itself;
    [BaseException] stands for the exceptions outside that class, such
    as [KeyboardInterrupt] and [SystemExit].  The string of the last two
    is the name of the class. *)
Inductive exn : Type :=
| ValueError (msg : string)
| Exception (arg : errout)
| IndexError
| KeyError (key : string)
| OtherError (name : string)
| BaseException (name : string).

(** [isinstance(e, Exception)] *)
Definition is_exception (e : exn) : bool :=
  match e with
  | BaseException _ => false
  | _ => true
  end.

Inductive Outcome (A : Type) : Type :=
| Ok (a : A)
| Raise (e : exn).
Arguments Ok {A} a.
Arguments Raise {A} e.

(** [key in p and p[key] == v] *)
Definition field_is (key : string) (v : pyval) (p : dict) : bool :=
  match p !! key with
  | Some a => py_eq a v
  | None => false
  end.

(** [d[key]] on a plain dictionary *)
Definition dict_getitem (d : dict) (key : string) : Outcome pyval :=
  match d !! key with
  | Some v => Ok v
  | None => Raise (KeyError key)
  end.

(** [l[0]] *)
Definition first {A : Type} (l : list A) : Outcome A :=
  match l with
  | x :: _ => Ok x
  | [] => Raise IndexError
  end.

(** [t[1]] *)
Definition second {A : Type} (t : list A) : Outcome A :=
  match t with
  | _ :: x :: _ => Ok x
  | _ => Raise IndexError
  end.

(** The message of the [ValueError] that [dict(seq)] raises on an element
    that is not a pair. *)
Definition dict_update_msg (i len : nat) : string :=
  "dictionary update sequence element #" +:+ pretty i +:+
  " has length " +:+ pretty len +:+ "; 2 is required".

(** A dictionary that is walked over: its items in the order in which
    their keys were first inserted, no key twice. *)
Abbreviation odict := (list (string * pyval)).

(** [d[key] = value]: the value of a key that is present is replaced
    where it stands, a new key goes to the end. *)
Fixpoint setitem (key : string) (value : pyval) (d : odict) : odict :=
  match d with
  | [] => [(key, value)]
  | (k, v) :: d' =>
      if String.eqb k key then (k, value) :: d'
      else (k, v) :: setitem key value d'
  end.

(** The mapping a dictionary stands for, its order forgotten. *)
Definition as_dict (d : odict) : dict := list_to_map d.

(** No key twice. *)
Fixpoint distinct_keys (d : odict) : Prop :=
  match d with
  | [] => True
  | (k, _) :: d' => as_dict d' !! k = None /\ distinct_keys d'
  end.

(** [dict(items)] for a list of tuples of strings, [i] being the index of
    the head of [items] in the original sequence.  Elements are taken
    from left to right; the first one that is not a pair raises. *)
Fixpoint dict_of_tuples (i : nat) (items : list (list string)) (d : odict)
  : Outcome odict :=
  match items with
  | [] => Ok d
  | [k; v] :: rest => dict_of_tuples (S i) rest (setitem k (PStr v) d)
  | t :: _ => Raise (ValueError (dict_update_msg i (length t)))
  end.

End Py.
Export Py.

(** ** The classes [window.py] relies on *)

(** The attributes [Window.__init__] stores. *)
Record Window_ (Session Server : Type) : Type := {
  session : Session;
  server : Server;
  _window_id : pyval
}.
Arguments session {Session Server} _.
Arguments server {Session Server} _.
Arguments _window_id {Session Server} _.

(** [Session], the server object, [Pane], the mapping mix-in
    [util.TmuxMappingObject] and [formats.PANE_FORMATS] are imported by
    [window.py] and defined elsewhere.  Their methods act on the outside
    world (the tmux server and the objects mirroring it), may raise, and
    are otherwise unconstrained.  So are the builtins of the Python
    runtime whose answer depends on its tables of characters:
    [str.isdigit], [int] on a string, which may raise, and [str] on a
    list. *)
Class Collaborators : Type := {
  World : Type;
  Session : Type;
  Server : Type;
  Pane : Type;
  (** [bool(session)] *)
  session_bool : Session -> World -> bool;
  (** [session.server] *)
  session_server : Session -> Server;
  (** [session.get(key)] *)
  session_get : Session -> string -> World -> Outcome pyval * World;
  (** [server.tmux] applied to the argument list *)
  server_tmux : Server -> list pyval -> World -> Outcome Process * World;
  (** [server._update_panes()._panes] *)
  server_update_panes : Server -> World -> Outcome (list dict) * World;
  (** [server._update_windows()] *)
  server_update_windows : Server -> World -> Outcome unit * World;
  (** [self.get(key)], [self[key]] and [self[key] = value], inherited by
      [Window] from the mapping mix-in *)
  mapping_get : Window_ Session Server -> string -> World -> Outcome pyval * World;
  mapping_getitem : Window_ Session Server -> string -> World -> Outcome pyval * World;
  mapping_setitem : Window_ Session Server -> string -> pyval -> World -> Outcome unit * World;
  (** [Pane(window=self, **kwargs)] and [pane.get(key)] *)
  Pane_new : Window_ Session Server -> dict -> World -> Outcome Pane * World;
  Pane_get : Pane -> string -> World -> Outcome pyval * World;
  (** [formats.PANE_FORMATS] *)
  PANE_FORMATS : list string;
  (** [value.isdigit()] and [int(value)] for a string *)
  isdigit : string -> bool;
  int : string -> Outcome Z;
  (** [str(l)] for a list of strings *)
  str_of_list : list string -> string
}.

(** ** The monad of the methods *)

(** The calls a method of [Window] makes on the server object. *)
Inductive Call : Type :=
| CallTmux (args : list pyval)
| CallUpdatePanes
| CallUpdateWindows.

(** The class [Window] itself. *)
Abbreviation Window := (Window_ Session Server).

Section Methods.
Context `{Collaborators}.

Record State : Type := { world : World; trace : list Call }.

Definition M (A : Type) : Type := State -> Outcome A * State.

Definition ret {A : Type} (a : A) : M A := fun st => (Ok a, st).

Definition raise {A : Type} (e : exn) : M A := fun st => (Raise e, st).

Definition bind {A B : Type} (m : M A) (k : A -> M B) : M B :=
  fun st =>
    match m st with
    | (Ok a, st') => k a st'
    | (Raise e, st') => (Raise e, st')
    end.

(** [try: m  except Exception as e: handler(e)]; what is raised outside
    the class [Exception] is not caught. *)
Definition try_except {A : Type} (m : M A) (handler : exn -> M A) : M A :=
  fun st =>
    match m st with
    | (Ok a, st') => (Ok a, st')
    | (Raise e, st') =>
        if is_exception e then handler e st' else (Raise e, st')
    end.

(** A pure computation that may raise. *)
Definition of_outcome {A : Type} (o : Outcome A) : M A := fun st => (o, st).

(** A collaborator's method: it sees and changes the world.  The trace
    holds the calls that the text of [window.py] makes on the server
    object; what a collaborator calls in its own body is part of what it
    does to the world. *)
Definition call {A : Type} (f : World -> Outcome A * World) : M A :=
  fun st =>
    let (r, w) := f (world st) in (r, {| world := w; trace := trace st |}).

(** A method of the server object: as [call], and recorded in the
    trace. *)
Definition server_call {A : Type} (c : Call) (f : World -> Outcome A * World)
  : M A :=
  fun st =>
    let (r, w) := f (world st) in
    (r, {| world := w; trace := trace st ++ [c] |}).

#[local] Notation "x <- m ;; k" := (bind m (fun x => k))
  (at level 100, m at next level, right associativity).

(** [[x for x in l if cond(x)]] where the condition has effects. *)
Fixpoint filter_list {A : Type} (cond : A -> M bool) (l : list A) : M (list A) :=
  match l with
  | [] => ret []
  | x :: l' =>
      b <- cond x ;;
      rest <- filter_list cond l' ;;
      ret (if b then x :: rest else rest)
  end.

(** [[f(x) for x in l]] where [f] has effects. *)
Fixpoint map_list {A B : Type} (f : A -> M B) (l : list A) : M (list B) :=
  match l with
  | [] => ret []
  | x :: l' =>
      y <- f x ;;
      rest <- map_list f l' ;;
      ret (y :: rest)
  end.

(** Reading the world without changing it. *)
Definition read {A : Type} (f : World -> A) : M A :=
  fun st => (Ok (f (world st)), st).

(** ** The methods of [Window] *)

(** [not session], for the [session] argument of the constructor *)
Definition not_session (session : option Session) (w : World) : bool :=
  match session with
  | None => true
  | Some s => negb (session_bool s w)
  end.

(** [Window.__init__(self, session=None, **kwargs)] *)
Definition __init__ (session : option Session) (kwargs : dict) : M Window :=
  match session with
  | None => raise (ValueError "Window requires a Session, session=Session")
  | Some s =>
      truth <- read (session_bool s) ;;
      if negb truth then
        raise (ValueError "Window requires a Session, session=Session")
      else
        match kwargs !! "window_id" with
        | None => raise (ValueError "Window requires a `window_id`")
        | Some wid =>
            ret {| session := s; server := session_server s; _window_id := wid |}
        end
  end.

(** [Window.tmux]: forwards to [self.server.tmux]. *)
Definition tmux (self : Window) (args : list pyval) : M Process :=
  server_call (CallTmux args) (server_tmux (server self) args).

(** [Window.target]:
    ["%s:%s" % (self.session.get('session_id'), self.get('window_id'))] *)
Definition target (self : Window) : M string :=
  sid <- call (session_get (session self) "session_id") ;;
  wid <- call (mapping_get self "window_id") ;;
  ret (py_str sid +:+ ":" +:+ py_str wid).

(** [Window.select_layout(layout=None)]; the result of the call is
    dropped and the method returns [None]. *)
Definition select_layout (self : Window) (layout : pyval) : M unit :=
  t <- target self ;;
  _ <- tmux self [PStr "select-layout"; PStr ("-t" +:+ t); layout] ;;
  ret tt.

(** The first lines of [set_window_option]: [True] and [False] become
    ['on'] and ['off']. *)
Definition on_off (value : pyval) : pyval :=
  match value with
  | PBool true => PStr "on"
  | PBool false => PStr "off"
  | v => v
  end.

(** ['%s' % process.stderr] *)
Definition err_str (e : errout) : string :=
  match e with
  | ErrStr s => s
  | ErrLines l => str_of_list l
  end.

(** [if isinstance(stderr, list) and len(stderr) == 1: stderr = stderr[0]] *)
Definition unwrap_single (e : errout) : errout :=
  match e with
  | ErrLines [l] => ErrStr l
  | e => e
  end.

(** [Window.set_window_option(option, value)] *)
Definition set_window_option (self : Window) (option value : pyval) : M unit :=
  let value := on_off value in
  wid <- call (mapping_getitem self "window_id") ;;
  process <- tmux self [PStr "set-window-option"; PStr ("-t" +:+ py_str wid);
                        option; value] ;;
  if err_truthy (stderr process) then
    raise (ValueError ("tmux set-window-option stderr: " +:+
                       err_str (unwrap_single (stderr process))))
  else ret tt.

(** [if value.isdigit(): value = int(value)] on one string, as
    [show_window_option] does it on the second field; what [int] raises
    comes out. *)
Definition coerce (value : string) : Outcome pyval :=
  if isdigit value then
    match int value with
    | Ok n => Ok (PInt n)
    | Raise e => Raise e
    end
  else Ok (PStr value).

(** The loop
    [for key, value in window_options.items():
       if value.isdigit(): window_options[key] = int(value)]
    over the [items] of the dictionary, which assigns into the
    dictionary it walks over; only a string has [isdigit]. *)
Fixpoint coerce_items (items : odict) (window_options : odict) : Outcome odict :=
  match items with
  | [] => Ok window_options
  | (key, PStr value) :: items' =>
      if isdigit value then
        match int value with
        | Ok n => coerce_items items' (setitem key (PInt n) window_options)
        | Raise e => Raise e
        end
      else coerce_items items' window_options
  | (key, _) :: _ => Raise (OtherError "AttributeError")
  end.

(** From [window_options = [tuple(item.split(' ')) ...]] to the end of
    [show_window_options]. *)
Definition parse_window_options (lines : list string) : Outcome dict :=
  let window_options := map (split " ") lines in
  match dict_of_tuples 0 window_options [] with
  | Ok window_options =>
      match coerce_items window_options window_options with
      | Ok window_options => Ok (as_dict window_options)
      | Raise e => Raise e
      end
  | Raise e => Raise e
  end.

(** [Window.show_window_option(option)] *)
Definition show_window_option (self : Window) (option : pyval) : M pyval :=
  p <- tmux self [PStr "show-window-options"; option] ;;
  match stdout p with
  | [] => ret PNone
  | _ :: _ =>
      window_option <- of_outcome (first (map (split " ") (stdout p))) ;;
      value <- of_outcome (second window_option) ;;
      of_outcome (coerce value)
  end.

(** What [show_window_options] returns: the dictionary of all options,
    or the value of the one that was asked for. *)
Inductive options_result : Type :=
| AllOptions (d : dict)
| OneOption (v : pyval).

(** [Window.show_window_options(option=None)] *)
Definition show_window_options (self : Window) (option : pyval)
  : M options_result :=
  if truthy option then
    v <- show_window_option self option ;;
    ret (OneOption v)
  else
    p <- tmux self [PStr "show-window-options"] ;;
    d <- of_outcome (parse_window_options (stdout p)) ;;
    ret (AllOptions d).

(** [Window.rename_window(new_name)]; an [Exception] that the [try]
    block raises is logged and dropped. *)
Definition rename_window (self : Window) (new_name : string) : M Window :=
  _ <- try_except
         (t <- target self ;;
          _ <- tmux self [PStr "rename-window"; PStr ("-t" +:+ t); PStr new_name] ;;
          call (mapping_setitem self "window_name" (PStr new_name)))
         (fun e => ret tt) ;;
  _ <- server_call CallUpdateWindows (server_update_windows (server self)) ;;
  ret self.

(** [Window._list_panes()]; the two list comprehensions evaluate their
    condition once for every pane. *)
Definition _list_panes (self : Window) : M (list dict) :=
  panes <- server_call CallUpdatePanes (server_update_panes (server self)) ;;
  panes <- filter_list
             (fun p =>
                a <- of_outcome (dict_getitem p "session_id") ;;
                b <- call (mapping_get self "session_id") ;;
                ret (py_eq a b))
             panes ;;
  panes <- filter_list
             (fun p =>
                a <- of_outcome (dict_getitem p "window_id") ;;
                b <- call (mapping_get self "window_id") ;;
                ret (py_eq a b))
             panes ;;
  ret panes.

(** The loop of [attached_pane] over [self._panes]. *)
Fixpoint first_active (self : Window) (panes : list dict) : M (option Pane) :=
  match panes with
  | [] => ret None
  | pane :: rest =>
      match pane !! "pane_active" with
      | Some active =>
          if py_eq active (PStr "1") then
            p <- call (Pane_new self pane) ;;
            ret (Some p)
          else first_active self rest
      | None => first_active self rest
      end
  end.

(** [Window.attached_pane()]; [None] when no pane is active. *)
Definition attached_pane (self : Window) : M (option Pane) :=
  panes <- _list_panes self ;;
  first_active self panes.

(** [Window.list_panes()], also the property [Window.panes] *)
Definition list_panes (self : Window) : M (list Pane) :=
  panes <- _list_panes self ;;
  map_list (fun pane => call (Pane_new self pane)) panes.

(** [Window.select_pane(target_pane)] *)
Definition select_pane (self : Window) (target_pane : pyval) : M (option Pane) :=
  proc <- tmux self [PStr "select-pane"; PStr ("-t" +:+ py_str target_pane)] ;;
  if err_truthy (stderr proc) then raise (Exception (stderr proc))
  else attached_pane self.

(** [pformats] in [split_window] *)
Definition pformats : list string :=
  ["session_name"; "session_id"; "window_index"; "window_id"] ++ PANE_FORMATS.

(** [dict((k, v) for k, v in pane.items() if v)] *)
Definition drop_empty (pane : dict) : dict :=
  filter (fun kv => truthy kv.2 = true) pane.

(** [Window.split_window(attach=True)]; the statements after the first
    [raise] of the error branch are never reached. *)
Definition split_window (self : Window) (attach : pyval) : M Pane :=
  let tmux_formats := map (fun f => "#{" +:+ f +:+ "}" +:+ tab) pformats in
  panes <- list_panes self ;;
  pane0 <- of_outcome (first panes) ;;
  pane_id <- call (Pane_get pane0 "pane_id") ;;
  let tmux_args := [PStr ("-t" +:+ py_str pane_id); PStr "-P";
                    PStr ("-F" +:+ join tmux_formats)] in
  let tmux_args := if negb (truthy attach) then tmux_args ++ [PStr "-d"]
                   else tmux_args in
  pane <- tmux self (PStr "split-window" :: tmux_args) ;;
  if err_truthy (stderr pane) then raise (Exception (stderr pane))
  else
    pane <- of_outcome (first (stdout pane)) ;;
    let pane := dict_zip pformats (split tab_char pane) ∅ in
    let pane := drop_empty pane in
    call (Pane_new self pane).

(** ** Calls of the public methods *)


Definition forget {A : Type} (m : M A) : M unit := _ <- m ;; ret tt.



Definition is_tmux (c : Call) : bool :=
  match c with
  | CallTmux _ => true
  | _ => false
  end.

(** How many [server.tmux] invocations a trace holds. *)
Definition tmux_calls (t : list Call) : nat := length (List.filter is_tmux t).

(** The [server.tmux] invocations [m] adds when it is run from [st]. *)
Definition spawned {A : Type} (m : M A) (st : State) : nat :=
  tmux_calls (trace (m st).2) - tmux_calls (trace st).


End Methods.

(** ** The wording of the specification *)

Module Spec.

Definition is_space (c : ascii) : bool :=
  let n := nat_of_ascii c in
  ((9 <=? n)%nat && (n <=? 13)%nat) || (n =? 32)%nat.

(** Splitting on whitespace, as [s.split()] does: runs of blanks
    separate the fields and no field is empty. *)
Fixpoint words (s : string) : list string :=
  match s with
  | EmptyString => []
  | String c s' =>
      if is_space c then words s'
      else
        match s' with
        | EmptyString => [String c EmptyString]
        | String c' _ =>
            if is_space c' then String c EmptyString :: words s'
            else match words s' with
                 | w :: ws => String c w :: ws
                 | [] => [String c EmptyString]
                 end
        end
  end.

(** "split each line on whitespace into a (name, value) pair" *)
Definition name_value (line : string) : option (string * string) :=
  match words line with
  | [name; value] => Some (name, value)
  | _ => None
  end.

Definition is_digit (c : ascii) : bool :=
  (48 <=? nat_of_ascii c)%nat && (nat_of_ascii c <=? 57)%nat.

Fixpoint all_digits (s : string) : bool :=
  match s with
  | EmptyString => true
  | String c s' => is_digit c && all_digits s'
  end.

(** "consisting entirely of digits": at least one character, and every
    character one of [0] to [9]. *)
Definition entirely_digits (s : string) : bool :=
  match s with
  | EmptyString => false
  | String _ _ => all_digits s
  end.

Fixpoint integer_acc (acc : Z) (s : string) : Z :=
  match s with
  | EmptyString => acc
  | String c s' => integer_acc (10 * acc + (Z.of_nat (nat_of_ascii c) - 48))%Z s'
  end.

(** "its integer value", for a value consisting entirely of digits *)
Definition integer_value (s : string) : Z := integer_acc 0 s.

(** "replace every value consisting entirely of digits by its integer
    value" *)
Definition numeric (value : string) : pyval :=
  if entirely_digits value then PInt (integer_value value) else PStr value.

(** "build a dict from those pairs" *)
Definition dict_of_pairs (pairs : list (string * string)) : dict :=
  fold_left (fun d kv => <[kv.1 := numeric kv.2]> d) pairs ∅.

(** The dictionary the specification describes for the lines of
    [show-window-options]; [None] when some line is not a pair. *)
Definition window_options (lines : list string) : option dict :=
  dict_of_pairs <$> mapM name_value lines.

(** The value the specification describes for [show_window_option]. *)
Definition window_option (lines : list string) : option pyval :=
  match lines with
  | [] => Some PNone
  | line :: _ => (fun nv => numeric nv.2) <$> name_value line
  end.

End Spec.

(** ** A scripted server *)

(** A small instance of [Collaborators] on which the methods can be run:
    the world holds the reply every [tmux] invocation gets, the pane rows
    of the server, and the rows of the window and of its session. *)
Module Scripted.

Record script : Type := {
  reply : Process;
  pane_rows : list dict;
  window_row : dict;
  session_row : dict
}.

Definition lookup_or_none (d : dict) (key : string) : pyval :=
  match d !! key with
  | Some v => v
  | None => PNone
  end.

Definition set_window_row (key : string) (v : pyval) (w : script) : script :=
  {| reply := reply w; pane_rows := pane_rows w;
     window_row := <[key := v]> (window_row w); session_row := session_row w |}.

Definition new_pane (kwargs : dict) : Outcome dict :=
  match kwargs !! "pane_id" with
  | Some _ => Ok kwargs
  | None => Raise (KeyError "pane_id")
  end.

(** The builtins of the scripted runtime.  [repr] of a string: the
    text between single quotes, or between double quotes when it holds a
    single quote and no double quote; the quote in use, the backslash
    and the control characters of ASCII are escaped, every other
    character is taken to be printable. *)
Definition double_quote : ascii := "034"%char.

Definition hex_digit (n : nat) : string :=
  String.substring n 1 "0123456789abcdef".

Definition escape (quote c : ascii) : string :=
  let n := nat_of_ascii c in
  if Ascii.eqb c quote || Ascii.eqb c "\" then String "\" (String c EmptyString)
  else if (n =? 9)%nat then "\t"
  else if (n =? 10)%nat then "\n"
  else if (n =? 13)%nat then "\r"
  else if (n <? 32)%nat || (n =? 127)%nat then
    "\x" +:+ hex_digit (n / 16) +:+ hex_digit (n mod 16)
  else String c EmptyString.

Fixpoint escape_all (quote : ascii) (s : string) : string :=
  match s with
  | EmptyString => EmptyString
  | String c s' => escape quote c +:+ escape_all quote s'
  end.

Definition repr (s : string) : string :=
  let quote := if occurs "'" s && negb (occurs double_quote s)
               then double_quote else "'"%char in
  String quote (escape_all quote s +:+ String quote EmptyString).

(** [str(l)] for a list of strings *)
Definition show_list (l : list string) : string :=
  "[" +:+ String.concat ", " (map repr l) +:+ "]".

(** The digits the scripted runtime knows, as UTF-8 text: the digits
    [0] to [9] of ASCII and the Arabic-Indic digits U+0660 to U+0669 are
    decimal digits; the superscripts U+00B2, U+00B3 and U+00B9 are
    digits for [isdigit] that [int] does not accept.  The runs below use
    no other character outside ASCII. *)
Inductive digit : Type :=
| Decimal (n : Z)
| Superscript.

Fixpoint digits (s : string) : option (list digit) :=
  match s with
  | EmptyString => Some []
  | String c s' =>
      let n := nat_of_ascii c in
      if (48 <=? n)%nat && (n <=? 57)%nat then
        cons (Decimal (Z.of_nat n - 48)) <$> digits s'
      else
        match s' with
        | EmptyString => None
        | String c' s'' =>
            let m := nat_of_ascii c' in
            if (n =? 217)%nat && (160 <=? m)%nat && (m <=? 169)%nat then
              cons (Decimal (Z.of_nat m - 160)) <$> digits s''
            else if (n =? 194)%nat &&
                    ((m =? 178)%nat || (m =? 179)%nat || (m =? 185)%nat) then
              cons Superscript <$> digits s''
            else None
        end
  end.

Fixpoint decimal (acc : Z) (l : list digit) : option Z :=
  match l with
  | [] => Some acc
  | Decimal n :: l' => decimal (10 * acc + n) l'
  | Superscript :: _ => None
  end.

(** [s.isdigit()]: at least one character, and every character a
    digit. *)
Definition runtime_isdigit (s : string) : bool :=
  match digits s with
  | Some (_ :: _) => true
  | _ => false
  end.

(** [int(s)] on a string of digits: its value when they are all decimal
    digits. *)
Definition runtime_int (s : string) : Outcome Z :=
  match digits s with
  | Some (d :: l) =>
      match decimal 0 (d :: l) with
      | Some n => Ok n
      | None => Raise (ValueError ("invalid literal for int() with base 10: " +:+ repr s))
      end
  | _ => Raise (ValueError ("invalid literal for int() with base 10: " +:+ repr s))
  end.

#[export] Instance collaborators : Collaborators := {|
  World := script;
  Session := unit;
  Server := unit;
  Pane := dict;
  session_bool := fun _ _ => true;
  session_server := fun _ => tt;
  session_get := fun _ key w => (Ok (lookup_or_none (session_row w) key), w);
  server_tmux := fun _ _ w => (Ok (reply w), w);
  server_update_panes := fun _ w => (Ok (pane_rows w), w);
  server_update_windows := fun _ w => (Ok tt, w);
  mapping_get := fun _ key w => (Ok (lookup_or_none (window_row w) key), w);
  mapping_getitem := fun _ key w => (dict_getitem (window_row w) key, w);
  mapping_setitem := fun _ key v w => (Ok tt, set_window_row key v w);
  Pane_new := fun _ kwargs w => (new_pane kwargs, w);
  Pane_get := fun p key w => (Ok (lookup_or_none p key), w);
  PANE_FORMATS := ["pane_index"; "pane_id"; "pane_active"; "pane_title"];
  isdigit := runtime_isdigit;
  int := runtime_int;
  str_of_list := show_list
|}.

(** A window [@1] of session [$0], and the state in which every [tmux]
    invocation is answered by [p] and the server lists the panes
    [rows]. *)
Definition win : Window :=
  {| session := tt; server := tt; _window_id := PStr "@1" |}.

Definition start (p : Process) (rows : list dict) : State :=
  {| world := {| reply := p; pane_rows := rows;
                 window_row := {[ "window_id" := PStr "@1";
                                  "session_id" := PStr "$0" ]};
                 session_row := {[ "session_id" := PStr "$0" ]} |};
     trace := [] |}.

Definition prints (lines : list string) : Process :=
  {| stdout := lines; stderr := ErrLines [] |}.


Definition pane_row (sid wid pid : string) : dict :=
  {[ "session_id" := PStr sid; "window_id" := PStr wid; "pane_id" := PStr pid ]}.

End Scripted.

(** ** The row of the window *)

(** [server._windows], the rows the server object holds for its windows;
    reading the attribute changes nothing. *)
Class WindowRows `{Collaborators} : Type := {
  server_windows : Server -> World -> list dict
}.

Section Row.
Context `{WindowRows}.

(** The local function [by] of [_TMUX]: the loop over [attrs.items()]
    returns in its first round, [False] when the row has no such key or
    another value, [True] otherwise; with no attribute at all the
    function falls off its end. *)
Definition by_ (attrs : list (string * pyval)) (val : dict) : pyval :=
  match attrs with
  | [] => PNone
  | (key, value) :: _ =>
      match val !! key with
      | None => PBool false
      | Some v => if negb (py_eq value v) then PBool false else PBool true
      end
  end.

(** The property [Window._TMUX]:
    [list(filter(by, self.server._windows))[0]] with
    [attrs = {'window_id': self._window_id}]. *)
Definition _TMUX (self : Window) : M dict :=
  let attrs := [("window_id", _window_id self)] in
  bind (read (server_windows (server self)))
    (fun windows =>
       of_outcome (first (List.filter (fun val => truthy (by_ attrs val)) windows))).

End Row.

(** ** A server that fails *)

(** As [Scripted], for the runs in which the collaborators raise: every
    [tmux] invocation raises, [OSError] or, when the script names one,
    the exception outside [Exception] of that name; reading a field of
    the window raises when the script holds no row for it. *)
Module Failing.

#[export] Instance collaborators : Collaborators := {|
  World := Scripted.script;
  Session := unit;
  Server := unit;
  Pane := dict;
  session_bool := fun _ _ => true;
  session_server := fun _ => tt;
  session_get := fun _ key w =>
    (Ok (Scripted.lookup_or_none (Scripted.session_row w) key), w);
  server_tmux := fun _ _ w =>
    (Raise (match stdout (Scripted.reply w) with
            | [] => OtherError "OSError"
            | name :: _ => BaseException name
            end), w);
  server_update_panes := fun _ w => (Ok (Scripted.pane_rows w), w);
  server_update_windows := fun _ w => (Ok tt, w);
  mapping_get := fun _ key w =>
    (if decide (Scripted.window_row w = ∅) then Raise IndexError
     else Ok (Scripted.lookup_or_none (Scripted.window_row w) key), w);
  mapping_getitem := fun _ key w =>
    (if decide (Scripted.window_row w = ∅) then Raise IndexError
     else dict_getitem (Scripted.window_row w) key, w);
  mapping_setitem := fun _ key v w => (Ok tt, Scripted.set_window_row key v w);
  Pane_new := fun _ kwargs w => (Scripted.new_pane kwargs, w);
  Pane_get := fun p key w => (Ok (Scripted.lookup_or_none p key), w);
  PANE_FORMATS := ["pane_index"; "pane_id"; "pane_active"; "pane_title"];
  isdigit := Scripted.runtime_isdigit;
  int := Scripted.runtime_int;
  str_of_list := Scripted.show_list
|}.

Definition win : Window :=
  {| session := tt; server := tt; _window_id := PStr "@1" |}.

Definition start (rows : list dict) (row : dict) : State :=
  {| world := {| Scripted.reply := Scripted.prints [];
                 Scripted.pane_rows := rows;
                 Scripted.window_row := row;
                 Scripted.session_row := {[ "session_id" := PStr "$0" ]} |};
     trace := [] |}.

(** The same state when the user is about to interrupt the [tmux]
    invocation. *)
Definition interrupted (rows : list dict) (row : dict) : State :=
  {| world := {| Scripted.reply := Scripted.prints ["KeyboardInterrupt"];
                 Scripted.pane_rows := rows;
                 Scripted.window_row := row;
                 Scripted.session_row := {[ "session_id" := PStr "$0" ]} |};
     trace := [] |}.

End Failing.

(** The scripted server with the window rows it holds: the pane rows of
    the script double as window rows. *)
Module ScriptedRows.

#[export] Instance rows : @WindowRows Scripted.collaborators :=
  @Build_WindowRows Scripted.collaborators (fun _ w => Scripted.pane_rows w).

End ScriptedRows.

(** * Properties *)

(** ** Strings and dictionaries *)

Lemma split_cons (sep : ascii) (s : string) :
  exists w ws, split sep s = w :: ws.
Proof.
  induction s as [|c s IH]; simpl; [eauto|].
  destruct (Ascii.eqb c sep); [eauto|].
  destruct IH as (w & ws & ->). eauto.
Qed.

Lemma split_app (sep : ascii) (a b : string) :
  split sep (a +:+ String sep b) = split sep a ++ split sep b.
Proof.
  induction a as [|c a IH]; simpl.
  - now rewrite Ascii.eqb_refl.
  - destruct (Ascii.eqb c sep); [now rewrite IH|].
    rewrite IH. destruct (split_cons sep a) as (w & ws & ->). reflexivity.
Qed.

Lemma split_two_separators (sep : ascii) (a b c : string) :
  2 < length (split sep (a +:+ String sep (b +:+ String sep c))).
Proof.
  rewrite !split_app, !length_app.
  destruct (split_cons sep a) as (? & ? & ->).
  destruct (split_cons sep b) as (? & ? & ->).
  destruct (split_cons sep c) as (? & ? & ->).
  simpl. lia.
Qed.

Lemma split_without (sep : ascii) (s : string) :
  occurs sep s = false -> split sep s = [s].
Proof.
  induction s as [|c s IH]; simpl; [reflexivity|].
  destruct (Ascii.eqb c sep); simpl; [discriminate|].
  intros Hs. now rewrite IH.
Qed.

(** A line [name value] with a single separator has exactly the two
    fields [name] and [value]. *)
Lemma split_name_value (sep : ascii) (name value : string) :
  occurs sep name = false -> occurs sep value = false ->
  split sep (name +:+ String sep value) = [name; value].
Proof.
  intros Hn Hv. now rewrite split_app, !split_without.
Qed.

Lemma as_dict_cons (k : string) (v : pyval) (d : odict) :
  as_dict ((k, v) :: d) = <[k := v]> (as_dict d).
Proof. reflexivity. Qed.

(** Assignment acts on the mapping as an insertion. *)
Lemma as_dict_setitem (key : string) (value : pyval) (d : odict) :
  as_dict (setitem key value d) = <[key := value]> (as_dict d).
Proof.
  induction d as [|[k v] d IH]; simpl; [reflexivity|].
  destruct (String.eqb k key) eqn:Hk.
  - apply String.eqb_eq in Hk as ->.
    rewrite !as_dict_cons. now rewrite insert_insert_eq.
  - apply String.eqb_neq in Hk.
    rewrite !as_dict_cons, IH. now apply insert_insert_ne.
Qed.

Lemma setitem_distinct (key : string) (value : pyval) (d : odict) :
  distinct_keys d -> distinct_keys (setitem key value d).
Proof.
  induction d as [|[k v] d IH]; simpl; [now split|].
  intros [Hk Hd]. destruct (String.eqb k key) eqn:Hkey; simpl.
  - now split.
  - apply String.eqb_neq in Hkey. split; [|now apply IH].
    rewrite as_dict_setitem, lookup_insert_ne by congruence. exact Hk.
Qed.

Lemma setitem_strings (key value : string) (d : odict) :
  Forall (fun kv : string * pyval => exists s, kv.2 = PStr s) d ->
  Forall (fun kv : string * pyval => exists s, kv.2 = PStr s) (setitem key (PStr value) d).
Proof.
  induction 1 as [|[k v] d Hv Hd IH]; simpl.
  - repeat constructor. simpl. eauto.
  - destruct (String.eqb k key); constructor; simpl; eauto.
Qed.

(** The dictionary [dict(items)] builds from pairs. *)
Lemma built_distinct (pairs : list (string * string)) (d : odict) :
  distinct_keys d ->
  distinct_keys (fold_left (fun d nv => setitem nv.1 (PStr nv.2) d) pairs d).
Proof.
  revert d. induction pairs as [|[n v] pairs IH]; intros d Hd; simpl; [exact Hd|].
  now apply IH, setitem_distinct.
Qed.

Lemma built_strings (pairs : list (string * string)) (d : odict) :
  Forall (fun kv : string * pyval => exists s, kv.2 = PStr s) d ->
  Forall (fun kv : string * pyval => exists s, kv.2 = PStr s)
    (fold_left (fun d nv => setitem nv.1 (PStr nv.2) d) pairs d).
Proof.
  revert d. induction pairs as [|[n v] pairs IH]; intros d Hd; simpl; [exact Hd|].
  now apply IH, setitem_strings.
Qed.

Lemma built_as_dict (pairs : list (string * string)) (d : odict) (m : gmap string string) :
  as_dict d = PStr <$> m ->
  as_dict (fold_left (fun d nv => setitem nv.1 (PStr nv.2) d) pairs d) =
  PStr <$> fold_left (fun m nv => <[nv.1 := nv.2]> m) pairs m.
Proof.
  revert d m. induction pairs as [|[n v] pairs IH]; intros d m Hd; simpl; [exact Hd|].
  apply IH. now rewrite as_dict_setitem, Hd, fmap_insert.
Qed.

(** [dict(items)] succeeds exactly on lists of pairs, and then inserts
    them from left to right. *)
Lemma dict_of_tuples_pairs (pairs : list (string * string)) (i : nat) (d : odict) :
  dict_of_tuples i (map (fun nv => [nv.1; nv.2]) pairs) d =
  Ok (fold_left (fun d nv => setitem nv.1 (PStr nv.2) d) pairs d).
Proof.
  revert i d. induction pairs as [|[n v] pairs IH]; intros i d; simpl; [reflexivity|].
  apply IH.
Qed.

Lemma dict_of_tuples_ok (items : list (list string)) (i : nat) (d d' : odict) :
  dict_of_tuples i items d = Ok d' -> Forall (fun t => length t = 2) items.
Proof.
  revert i d. induction items as [|t items IH]; intros i d Hd; [constructor|].
  destruct t as [|k [|v [|x t]]]; simpl in Hd; try discriminate.
  constructor; [reflexivity|]. eapply IH, Hd.
Qed.

Lemma dict_of_tuples_raise (items : list (list string)) (i : nat) (d : odict) :
  Exists (fun t => length t <> 2) items ->
  exists msg, dict_of_tuples i items d = Raise (ValueError msg).
Proof.
  intros Hex. revert i d.
  induction items as [|t items IH]; intros i d; [inversion Hex|].
  destruct t as [|k [|v [|x t]]]; simpl; eauto.
  apply IH. inversion Hex as [? ? Hlen|]; [simpl in Hlen; lia|assumption].
Qed.

Lemma dict_of_tuples_inv (items : list (list string)) (i : nat) (d0 d : odict) :
  dict_of_tuples i items d0 = Ok d ->
  exists pairs : list (string * string),
    items = map (fun nv => [nv.1; nv.2]) pairs /\
    d = fold_left (fun d nv => setitem nv.1 (PStr nv.2) d) pairs d0.
Proof.
  revert i d0. induction items as [|t items IH]; intros i d0 Hd.
  - injection Hd as <-. now exists [].
  - destruct t as [|k [|v [|x t]]]; simpl in Hd; try discriminate.
    destruct (IH _ _ Hd) as (pairs & -> & ->). now exists ((k, v) :: pairs).
Qed.

Section Coercion.
Context `{Collaborators}.

Lemma coerce_str (s : string) : isdigit s = false -> coerce s = Ok (PStr s).
Proof. unfold coerce. now intros ->. Qed.

Lemma coerce_int (s : string) (n : Z) :
  isdigit s = true -> int s = Ok n -> coerce s = Ok (PInt n).
Proof. unfold coerce. now intros -> ->. Qed.

(** What the coercion returns: the integer [int] gives for a string
    that [isdigit] accepts, the string itself otherwise. *)
Lemma coerce_ok (s : string) (v : pyval) :
  coerce s = Ok v <->
  (isdigit s = true /\ exists n, int s = Ok n /\ v = PInt n) \/
  (isdigit s = false /\ v = PStr s).
Proof.
  unfold coerce. destruct (isdigit s); [destruct (int s) as [n|e]|]; split.
  - intros [= <-]. left. eauto.
  - intros [(_ & n' & [= <-] & ->)|[? _]]; [reflexivity|discriminate].
  - discriminate.
  - intros [(_ & n' & ? & _)|[? _]]; discriminate.
  - intros [= <-]. now right.
  - intros [[? _]|[_ ->]]; [discriminate|reflexivity].
Qed.

(** The loop of [show_window_options] when it runs to its end: a key it
    walks over holds a string, replaced by its integer when [isdigit]
    accepts it; every other key is left as it was. *)
Lemma coerce_items_ok (items acc d' : odict) :
  distinct_keys items ->
  coerce_items items acc = Ok d' ->
  forall k,
    match as_dict items !! k with
    | Some v =>
        exists s, v = PStr s /\
          if isdigit s
          then exists n, int s = Ok n /\ as_dict d' !! k = Some (PInt n)
          else as_dict d' !! k = as_dict acc !! k
    | None => as_dict d' !! k = as_dict acc !! k
    end.
Proof.
  revert acc. induction items as [|[key value] items IH]; intros acc Hd Hrun k.
  - injection Hrun as <-. reflexivity.
  - destruct Hd as [Hkey Hd]. simpl in Hrun.
    destruct value as [| | |s0]; try discriminate.
    rewrite as_dict_cons.
    destruct (isdigit s0) eqn:Hdigit; [destruct (int s0) as [n|e] eqn:Hint|];
      try discriminate.
    + specialize (IH _ Hd Hrun). destruct (decide (key = k)) as [<-|Hne].
      * rewrite lookup_insert_eq. exists s0. split; [reflexivity|].
        rewrite Hdigit. exists n. split; [exact Hint|].
        specialize (IH key). rewrite Hkey in IH.
        now rewrite IH, as_dict_setitem, lookup_insert_eq.
      * rewrite lookup_insert_ne by assumption. specialize (IH k).
        rewrite as_dict_setitem, lookup_insert_ne in IH by assumption. exact IH.
    + specialize (IH _ Hd Hrun). destruct (decide (key = k)) as [<-|Hne].
      * rewrite lookup_insert_eq. exists s0. split; [reflexivity|].
        rewrite Hdigit. specialize (IH key). now rewrite Hkey in IH.
      * rewrite lookup_insert_ne by assumption. apply IH.
Qed.

(** The loop raises only what [int] raises on a value that [isdigit]
    accepts. *)
Lemma coerce_items_raise (items acc : odict) (e : exn) :
  distinct_keys items ->
  Forall (fun kv : string * pyval => exists s, kv.2 = PStr s) items ->
  coerce_items items acc = Raise e ->
  exists k s, as_dict items !! k = Some (PStr s) /\ isdigit s = true /\ int s = Raise e.
Proof.
  revert acc. induction items as [|[key value] items IH]; intros acc Hd Hs Hrun;
    [discriminate|].
  destruct Hd as [Hkey Hd]. inversion Hs as [|? ? [s0 Hv] Hs']; subst.
  simpl in Hv. subst value. simpl in Hrun. rewrite as_dict_cons.
  assert (Hlater : forall acc', coerce_items items acc' = Raise e ->
            exists k s, <[key := PStr s0]> (as_dict items) !! k = Some (PStr s) /\
                        isdigit s = true /\ int s = Raise e).
  { intros acc' Hrun'. destruct (IH _ Hd Hs' Hrun') as (k & s & Hk & Hrest).
    exists k, s. split; [|exact Hrest].
    rewrite lookup_insert_ne; [exact Hk|]. intros <-. congruence. }
  destruct (isdigit s0) eqn:Hdigit; [destruct (int s0) as [n|e'] eqn:Hint|].
  - eapply Hlater, Hrun.
  - injection Hrun as ->. exists key, s0. now rewrite lookup_insert_eq.
  - eapply Hlater, Hrun.
Qed.

(** From the lines to the dictionary, when every line is a pair:
    [built] is the dictionary of the pairs, a later pair replacing an
    earlier one of the same name. *)
Lemma parse_window_options_pairs (lines : list string)
    (pairs : list (string * string)) :
  map (split " ") lines = map (fun nv => [nv.1; nv.2]) pairs ->
  let built : gmap string string :=
    fold_left (fun m nv => <[nv.1 := nv.2]> m) pairs ∅ in
  match parse_window_options lines with
  | Ok d =>
      forall k, match built !! k with
                | Some s => exists v, coerce s = Ok v /\ d !! k = Some v
                | None => d !! k = None
                end
  | Raise e =>
      exists k s, built !! k = Some s /\ isdigit s = true /\ int s = Raise e
  end.
Proof.
  intros Hmap built. unfold parse_window_options.
  rewrite Hmap, dict_of_tuples_pairs.
  set (d0 := fold_left (fun d nv => setitem nv.1 (PStr nv.2) d) pairs []).
  assert (Hdistinct : distinct_keys d0) by now apply built_distinct.
  assert (Hstrings : Forall (fun kv : string * pyval => exists s, kv.2 = PStr s) d0)
    by (apply built_strings; constructor).
  assert (Hd0 : as_dict d0 = PStr <$> built)
    by (apply built_as_dict; symmetry; apply fmap_empty).
  destruct (coerce_items d0 d0) as [d'|e] eqn:Hrun.
  - intros k. pose proof (coerce_items_ok _ _ _ Hdistinct Hrun k) as Hk.
    rewrite Hd0, lookup_fmap in Hk.
    destruct (built !! k) as [s|]; simpl in Hk; [|exact Hk].
    destruct Hk as (s' & [= <-] & Hk).
    destruct (isdigit s) eqn:Hdigit.
    + destruct Hk as (n & Hint & Hk). exists (PInt n).
      split; [now apply coerce_int|exact Hk].
    + exists (PStr s). split; [now apply coerce_str|exact Hk].
  - destruct (coerce_items_raise _ _ _ Hdistinct Hstrings Hrun) as (k & s & Hk & Hrest).
    exists k, s. split; [|exact Hrest].
    rewrite Hd0, lookup_fmap in Hk. destruct (built !! k); simpl in Hk; congruence.
Qed.

Lemma parse_window_options_inv (lines : list string) (d : dict) :
  parse_window_options lines = Ok d ->
  exists pairs : list (string * string),
    map (split " ") lines = map (fun nv => [nv.1; nv.2]) pairs.
Proof.
  unfold parse_window_options.
  destruct (dict_of_tuples 0 (map (split " ") lines) []) as [d'|e] eqn:Hd; [|discriminate].
  intros _. destruct (dict_of_tuples_inv _ _ _ _ Hd) as (pairs & Hp & _). eauto.
Qed.

End Coercion.
(** ** The option parsers *)

Ltac run :=
  unfold bind, ret, raise, read, call, server_call, of_outcome, try_except,
    forget in *; simpl in *.

Section Parsers.
Context `{Collaborators}.

Lemma show_window_options_run (self : Window) (option : pyval) (st : State)
    (p : Process) (w' : World) :
  truthy option = false ->
  server_tmux (server self) [PStr "show-window-options"] (world st) = (Ok p, w') ->
  show_window_options self option st =
    (match parse_window_options (stdout p) with
     | Ok d => Ok (AllOptions d)
     | Raise e => Raise e
     end,
     {| world := w';
        trace := trace st ++ [CallTmux [PStr "show-window-options"]] |}).
Proof.
  intros Hopt Htmux. unfold show_window_options, tmux. rewrite Hopt. run.
  rewrite Htmux. now destruct (parse_window_options (stdout p)).
Qed.

(** C1, amended: when every stdout line splits on the single space
    character into exactly a name and a value, [show_window_options]
    called without an option builds the dictionary of those pairs in
    order, a later line replacing an earlier one of the same name, and
    replaces every value that [isdigit] accepts by what [int] makes of
    it.  When [int] converts all those values the method returns
    exactly that dictionary; when [int] raises on one of them the
    method raises what [int] raised. *)
Theorem show_window_options_pairs (self : Window) (option : pyval) (st : State)
    (p : Process) (w' : World) (pairs : list (string * string)) :
  truthy option = false ->
  server_tmux (server self) [PStr "show-window-options"] (world st) = (Ok p, w') ->
  map (split " ") (stdout p) = map (fun nv => [nv.1; nv.2]) pairs ->
  let built : gmap string string :=
    fold_left (fun m nv => <[nv.1 := nv.2]> m) pairs ∅ in
  (show_window_options self option st).2 =
    {| world := w';
       trace := trace st ++ [CallTmux [PStr "show-window-options"]] |}
  /\ ((forall k s, built !! k = Some s -> isdigit s = true -> exists n, int s = Ok n) ->
      exists d : dict,
        (show_window_options self option st).1 = Ok (AllOptions d) /\
        forall k v,
          d !! k = Some v <->
          exists s, built !! k = Some s /\
            ((isdigit s = true /\ exists n, int s = Ok n /\ v = PInt n) \/
             (isdigit s = false /\ v = PStr s)))
  /\ ((exists k s e, built !! k = Some s /\ isdigit s = true /\ int s = Raise e) ->
      exists k s e, built !! k = Some s /\ isdigit s = true /\ int s = Raise e /\
        (show_window_options self option st).1 = Raise e).
Proof.
  intros Hopt Htmux Hpairs built.
  rewrite (show_window_options_run _ _ _ _ _ Hopt Htmux). cbn [fst snd].
  split; [reflexivity|].
  pose proof (parse_window_options_pairs _ _ Hpairs) as Hparse.
  cbv zeta in Hparse. fold built in Hparse.
  destruct (parse_window_options (stdout p)) as [d|e]; split.
  - intros _. exists d. split; [reflexivity|]. intros k v. specialize (Hparse k).
    destruct (built !! k) as [s|].
    + destruct Hparse as (v' & Hv & ->). split.
      * intros [= <-]. exists s. split; [reflexivity|]. now apply coerce_ok.
      * intros (s' & [= <-] & Hs). apply coerce_ok in Hs. congruence.
    + rewrite Hparse. split; [discriminate|]. intros (s & Hs & _). discriminate.
  - intros (k & s & e & Hk & Hdigit & Hint). exfalso.
    specialize (Hparse k). rewrite Hk in Hparse. destruct Hparse as (v & Hv & _).
    unfold coerce in Hv. rewrite Hdigit, Hint in Hv. discriminate.
  - intros Hall. exfalso. destruct Hparse as (k & s & Hk & Hdigit & Hint).
    destruct (Hall k s Hk Hdigit) as [n Hn]. congruence.
  - intros _. destruct Hparse as (k & s & Hk & Hdigit & Hint). exists k, s, e. auto.
Qed.

(** C10: [show_window_options] called without an option raises (from the
    construction of the dictionary) whenever some stdout line has more
    than two space-separated fields, in particular whenever a value
    contains a space, and returns normally only if every line has
    exactly two fields. *)
Theorem show_window_options_fields (self : Window) (option : pyval) (st : State)
    (p : Process) (w' : World) :
  truthy option = false ->
  server_tmux (server self) [PStr "show-window-options"] (world st) = (Ok p, w') ->
  (Exists (fun line => 2 < length (split " " line)) (stdout p) ->
   exists msg, (show_window_options self option st).1 = Raise (ValueError msg))
  /\ (forall name u v : string,
        In (name +:+ " " +:+ (u +:+ " " +:+ v)) (stdout p) ->
        exists msg, (show_window_options self option st).1 = Raise (ValueError msg))
  /\ (forall d, (show_window_options self option st).1 = Ok d ->
        Forall (fun line => length (split " " line) = 2) (stdout p)).
Proof.
  intros Hopt Htmux.
  rewrite (show_window_options_run _ _ _ _ _ Hopt Htmux). cbn [fst].
  assert (Hmore : Exists (fun line => 2 < length (split " " line)) (stdout p) ->
    exists msg, match parse_window_options (stdout p) with
                | Ok d => Ok (AllOptions d)
                | Raise e => Raise e
                end = Raise (ValueError msg)).
  { intros Hex. unfold parse_window_options.
    destruct (dict_of_tuples_raise (map (split " ") (stdout p)) 0 []) as [msg Hmsg].
    - apply List.Exists_exists in Hex as (line & Hin & Hlen).
      apply List.Exists_exists. exists (split " " line). split; [|lia].
      now apply in_map.
    - rewrite Hmsg. eauto. }
  split; [exact Hmore|]. split.
  - intros name u v Hin. apply Hmore, List.Exists_exists.
    eexists. split; [exact Hin|]. apply (split_two_separators " " name u v).
  - intros d. unfold parse_window_options.
    destruct (dict_of_tuples 0 (map (split " ") (stdout p)) []) as [d'|e] eqn:Hd;
      [|discriminate].
    intros _. apply dict_of_tuples_ok in Hd.
    rewrite List.Forall_map in Hd. exact Hd.
Qed.

(** C5, amended: [show_window_option] returns [None] when stdout is
    empty; otherwise it splits the first stdout line on the single space
    character and takes the second field: it returns [int] of that
    field, or raises what [int] raises, when [isdigit] accepts it, and
    the field itself as a string otherwise; a first line without a
    space raises [IndexError].  On a first line [name value] with no
    other space the second field is [value]. *)
Theorem show_window_option_value (self : Window) (option : pyval) (st : State)
    (p : Process) (w' : World) :
  server_tmux (server self) [PStr "show-window-options"; option] (world st)
    = (Ok p, w') ->
  (show_window_option self option st).1 =
    match stdout p with
    | [] => Ok PNone
    | line :: _ =>
        match split " " line with
        | _ :: value :: _ =>
            if isdigit value
            then match int value with
                 | Ok n => Ok (PInt n)
                 | Raise e => Raise e
                 end
            else Ok (PStr value)
        | _ => Raise IndexError
        end
    end
  /\ (forall name value rest,
        stdout p = (name +:+ " " +:+ value) :: rest ->
        occurs " " name = false -> occurs " " value = false ->
        (show_window_option self option st).1 =
          if isdigit value
          then match int value with
               | Ok n => Ok (PInt n)
               | Raise e => Raise e
               end
          else Ok (PStr value))
  /\ (forall line rest,
        stdout p = line :: rest -> occurs " " line = false ->
        (show_window_option self option st).1 = Raise IndexError).
Proof.
  intros Htmux.
  assert (Hrun : (show_window_option self option st).1 =
    match stdout p with
    | [] => Ok PNone
    | line :: _ =>
        match split " " line with
        | _ :: value :: _ => coerce value
        | _ => Raise IndexError
        end
    end).
  { unfold show_window_option, tmux. run. rewrite Htmux.
    destruct (stdout p) as [|line lines]; simpl; [reflexivity|].
    destruct (split " " line) as [|name [|value rest]]; reflexivity. }
  unfold coerce in Hrun.
  split; [exact Hrun|]. split.
  - intros name value rest Hout Hname Hvalue. rewrite Hrun, Hout.
    change (name +:+ " " +:+ value) with (name +:+ String " " value).
    now rewrite split_name_value.
  - intros line rest Hout Hline. rewrite Hrun, Hout.
    now rewrite split_without.
Qed.

End Parsers.

(** C1 fails as stated: on the line ["a  1"] splitting on whitespace
    gives the pair [("a", "1")], while the code splits on every single
    space, gets three fields and raises. *)
Lemma show_window_options_double_space :
  Spec.window_options ["a  1"] = Some {[ "a" := PInt 1 ]} /\
  (show_window_options Scripted.win PNone
     (Scripted.start (Scripted.prints ["a  1"]) [])).1 =
    Raise (ValueError
      "dictionary update sequence element #0 has length 3; 2 is required").
Proof. split; reflexivity. Qed.

(** C5 fails as stated: on the line ["mode-keys  vi"] splitting on
    whitespace gives the value ["vi"], while the code returns the empty
    second field; and a line without a value raises instead of
    returning. *)
Lemma show_window_option_double_space :
  Spec.window_option ["mode-keys  vi"] = Some (PStr "vi") /\
  (show_window_option Scripted.win (PStr "mode-keys")
     (Scripted.start (Scripted.prints ["mode-keys  vi"]) [])).1 = Ok (PStr "") /\
  (show_window_option Scripted.win (PStr "mode-keys")
     (Scripted.start (Scripted.prints ["mode-keys"]) [])).1 = Raise IndexError.
Proof. repeat split; reflexivity. Qed.
(** ** Arguments handed to tmux *)

Section Arguments.
Context `{Collaborators}.

(** C8: [Window.__init__] raises [ValueError], and nothing else, exactly
    when the session argument is falsy or the keyword arguments have no
    ['window_id']; when it succeeds, the window stores the ['window_id']
    keyword argument, the session it was given, and that session's
    server. *)
Theorem init_raises_iff (sess : option Session) (kwargs : dict) (st : State) :
  ((exists msg, (__init__ sess kwargs st).1 = Raise (ValueError msg)) <->
   (not_session sess (world st) = true \/ kwargs !! "window_id" = None))
  /\ (forall e, (__init__ sess kwargs st).1 = Raise e -> exists msg, e = ValueError msg)
  /\ (forall self, (__init__ sess kwargs st).1 = Ok self ->
        kwargs !! "window_id" = Some (_window_id self) /\
        sess = Some (session self) /\
        server self = session_server (session self)).
Proof.
  unfold __init__, not_session. run.
  destruct sess as [s|]; simpl;
    [destruct (session_bool s (world st)); simpl;
       [destruct (kwargs !! "window_id") as [wid|]; simpl|]|].
  all: repeat match goal with
              | |- _ /\ _ => split
              | |- _ <-> _ => split
              end.
  all: try (intros [msg Hmsg]; discriminate).
  all: try (intros [Hfalsy|Hmissing]; discriminate).
  all: try (intros x Hx; inversion Hx; subst; eauto; fail).
  all: eauto.
Qed.

(** C6: with [session_id] the id the owning session reports and
    [window_id] the id this window reports, [Window.target] is
    [session_id:window_id] and [select_layout] invokes tmux with exactly
    the arguments [select-layout], [-t] followed by that target, and the
    layout. *)
Theorem select_layout_args (self : Window) (layout : pyval) (st : State)
    (session_id window_id : string) (w1 w2 : World) :
  session_get (session self) "session_id" (world st) = (Ok (PStr session_id), w1) ->
  mapping_get self "window_id" w1 = (Ok (PStr window_id), w2) ->
  let args := [PStr "select-layout";
               PStr ("-t" +:+ session_id +:+ ":" +:+ window_id); layout] in
  target self st = (Ok (session_id +:+ ":" +:+ window_id),
                    {| world := w2; trace := trace st |})
  /\ select_layout self layout st =
       (match (server_tmux (server self) args w2).1 with
        | Ok _ => Ok tt
        | Raise e => Raise e
        end,
        {| world := (server_tmux (server self) args w2).2;
           trace := trace st ++ [CallTmux args] |}).
Proof.
  intros Hs Hw args.
  assert (Ht : target self st = (Ok (session_id +:+ ":" +:+ window_id),
                    {| world := w2; trace := trace st |})).
  { unfold target. run. rewrite Hs. simpl. rewrite Hw. reflexivity. }
  split; [exact Ht|].
  unfold select_layout, bind. rewrite Ht. unfold tmux. run.
  fold args. destruct (server_tmux (server self) args w2) as [[pr|e] w3]; reflexivity.
Qed.

(** C9: [set_window_option] passes ['on'] to tmux for the boolean
    [True], ['off'] for the boolean [False], and every value that is not
    a boolean unchanged. *)
Theorem set_window_option_on_off (self : Window) (option value : pyval)
    (st : State) (wid : pyval) (w1 : World) :
  mapping_getitem self "window_id" (world st) = (Ok wid, w1) ->
  exists passed : pyval,
    trace (set_window_option self option value st).2 =
      trace st ++ [CallTmux [PStr "set-window-option";
                             PStr ("-t" +:+ py_str wid); option; passed]]
    /\ (value = PBool true -> passed = PStr "on")
    /\ (value = PBool false -> passed = PStr "off")
    /\ ((forall b, value <> PBool b) -> passed = value).
Proof.
  intros Hw. exists (on_off value). split.
  - unfold set_window_option, tmux. run. rewrite Hw. simpl.
    destruct (server_tmux _ _ w1) as [[pr|e] w2]; simpl; [|reflexivity].
    destruct (err_truthy (stderr pr)); reflexivity.
  - repeat split.
    + intros ->. reflexivity.
    + intros ->. reflexivity.
    + intros Hnb. destruct value as [| b | |]; try reflexivity.
      now destruct (Hnb b).
Qed.

End Arguments.

(** ** Panes *)

Section Panes.
Context `{Collaborators}.

Lemma filter_filter {A : Type} (f g : A -> bool) (l : list A) :
  List.filter g (List.filter f l) = List.filter (fun x => f x && g x) l.
Proof.
  induction l as [|x l IH]; simpl; [reflexivity|].
  destruct (f x); simpl; [destruct (g x)|]; now rewrite IH.
Qed.

Lemma state_eta (st : State) : {| world := world st; trace := trace st |} = st.
Proof. now destruct st. Qed.

(** One comprehension of [_list_panes], run while [self.get(key)] keeps
    answering [v]: it raises [KeyError] at the first row without the key
    and is a plain filter otherwise. *)
Lemma filter_list_keyed (self : Window) (key : string) (v : pyval)
    (rows : list dict) (st : State) :
  mapping_get self key (world st) = (Ok v, world st) ->
  filter_list
    (fun p => bind (of_outcome (dict_getitem p key))
                (fun a => bind (call (mapping_get self key))
                            (fun b => ret (py_eq a b))))
    rows st =
  (if forallb (fun p : dict => bool_decide (is_Some (p !! key))) rows
   then Ok (List.filter (field_is key v) rows)
   else Raise (KeyError key), st).
Proof.
  intros Hget. unfold bind, of_outcome, call, ret, dict_getitem.
  induction rows as [|p rows IH]; simpl; [reflexivity|].
  unfold field_is at 1.
  destruct (p !! key) as [a|] eqn:Hp; simpl; [|reflexivity].
  unfold bind at 1. rewrite Hget, state_eta.
  unfold bind at 1. rewrite IH.
  destruct (forallb _ rows); [|reflexivity].
  unfold ret. now destruct (py_eq a v).
Qed.

(** The whole of [_list_panes] under the same condition. *)
Lemma _list_panes_run (self : Window) (st : State) (rows : list dict)
    (w1 : World) (session_id window_id : pyval) :
  server_update_panes (server self) (world st) = (Ok rows, w1) ->
  mapping_get self "session_id" w1 = (Ok session_id, w1) ->
  mapping_get self "window_id" w1 = (Ok window_id, w1) ->
  _list_panes self st =
  (if forallb (fun p : dict => bool_decide (is_Some (p !! "session_id"))) rows
   then
     if forallb (fun p : dict => bool_decide (is_Some (p !! "window_id")))
          (List.filter (field_is "session_id" session_id) rows)
     then Ok (List.filter
                (fun p => field_is "session_id" session_id p &&
                          field_is "window_id" window_id p) rows)
     else Raise (KeyError "window_id")
   else Raise (KeyError "session_id"),
   {| world := w1; trace := trace st ++ [CallUpdatePanes] |}).
Proof.
  intros Hupd Hsid Hwid. unfold _list_panes.
  unfold bind at 1, server_call. rewrite Hupd.
  unfold bind at 1. rewrite (filter_list_keyed self "session_id" session_id) by exact Hsid.
  destruct (forallb _ rows); [|reflexivity].
  unfold bind at 1. rewrite (filter_list_keyed self "window_id" window_id) by exact Hwid.
  destruct (forallb _ (List.filter _ rows)); [|reflexivity].
  unfold ret. now rewrite filter_filter.
Qed.

(** C4, amended: when the window reports the ids [session_id] and
    [window_id], every pane of the server's list has a ['session_id']
    and every pane of this window's session has a ['window_id'],
    [list_panes] returns exactly the panes of that list whose
    ['session_id'] equals [session_id] and whose ['window_id'] equals
    [window_id], in the order of the list, each wrapped by
    [Pane(window=self, ...)]. *)
Theorem list_panes_filter (self : Window) (st : State) (rows : list dict)
    (w1 : World) (session_id window_id : pyval) :
  server_update_panes (server self) (world st) = (Ok rows, w1) ->
  mapping_get self "session_id" w1 = (Ok session_id, w1) ->
  mapping_get self "window_id" w1 = (Ok window_id, w1) ->
  Forall (fun p : dict => is_Some (p !! "session_id")) rows ->
  Forall (fun p : dict => field_is "session_id" session_id p = true ->
                          is_Some (p !! "window_id")) rows ->
  let st1 := {| world := w1; trace := trace st ++ [CallUpdatePanes] |} in
  let mine := List.filter
                (fun p => field_is "session_id" session_id p && field_is "window_id" window_id p)
                rows in
  _list_panes self st = (Ok mine, st1)
  /\ list_panes self st = map_list (fun pane => call (Pane_new self pane)) mine st1.
Proof.
  intros Hupd Hsid Hwid Hs Hw st1 mine.
  assert (Hrows : _list_panes self st = (Ok mine, st1)).
  { rewrite (_list_panes_run self st rows w1 _ _ Hupd Hsid Hwid).
    rewrite Forall_forall in Hs. rewrite Forall_forall in Hw.
    replace (forallb _ rows) with true.
    - replace (forallb _ (List.filter _ rows)) with true; [reflexivity|].
      symmetry. apply forallb_forall. intros p Hp. apply filter_In in Hp as [Hp Hf].
      apply bool_decide_eq_true. apply Hw; [now apply list_elem_of_In|exact Hf].
    - symmetry. apply forallb_forall. intros p Hp. apply bool_decide_eq_true.
      apply Hs. now apply list_elem_of_In. }
  split; [exact Hrows|].
  unfold list_panes, bind. now rewrite Hrows.
Qed.

Lemma dict_zip_strings (keys values : list string) (d : dict) :
  (forall k v, d !! k = Some v -> exists s, v = PStr s) ->
  forall k v, dict_zip keys values d !! k = Some v -> exists s, v = PStr s.
Proof.
  revert values d. induction keys as [|k0 keys IH]; intros [|v0 values] d Hd; simpl; auto.
  apply IH. intros k v. destruct (decide (k0 = k)) as [->|Hne].
  - rewrite lookup_insert_eq. intros [= <-]. eauto.
  - rewrite lookup_insert_ne by assumption. apply Hd.
Qed.

Lemma dict_zip_lookup_notin (keys values : list string) (d : dict) (k : string) :
  ~ In k keys -> dict_zip keys values d !! k = d !! k.
Proof.
  revert values d. induction keys as [|k0 keys IH]; intros [|v0 values] d Hk; simpl; auto.
  rewrite IH by (intros Hin; apply Hk; now right).
  apply lookup_insert_ne. intros ->. apply Hk. now left.
Qed.

(** Zipping is positional: a name that occurs once is bound to the field
    at its position. *)
Lemma dict_zip_lookup (keys values : list string) (d : dict) (i : nat)
    (k v : string) :
  List.NoDup keys -> keys !! i = Some k -> values !! i = Some v ->
  dict_zip keys values d !! k = Some (PStr v).
Proof.
  revert values d i.
  induction keys as [|k0 keys IH]; intros [|v0 values] d [|i] Hnd Hk Hv;
    try discriminate; simpl in *; inversion Hnd; subst.
  - injection Hk as ->. injection Hv as ->.
    rewrite dict_zip_lookup_notin by assumption. apply lookup_insert_eq.
  - eapply IH; eassumption.
Qed.

(** On a dictionary of strings, dropping the falsy values drops the
    empty strings. *)
Lemma drop_empty_strings (d : dict) :
  (forall k v, d !! k = Some v -> exists s, v = PStr s) ->
  drop_empty d = filter (fun kv => kv.2 <> PStr "") d.
Proof.
  intros Hd. unfold drop_empty. apply map_filter_ext. intros k v Hk.
  destruct (Hd k v Hk) as [s ->]. simpl.
  destruct s; simpl; split; congruence.
Qed.

(** C3: when the split-window subprocess returns empty stderr,
    [split_window] returns the [Pane] built from the first stdout line
    split on tabs and zipped with the names ['session_name'],
    ['session_id'], ['window_index'], ['window_id'] followed by
    [PANE_FORMATS], the pairs with an empty value removed: a name that
    occurs once is bound to the field at its position unless that field
    is empty. *)
Theorem split_window_pane (self : Window) (attach : pyval) (st st1 : State)
    (pane0 : Pane) (rest : list Pane) (pane_id : pyval) (w2 w3 : World)
    (p : Process) (line : string) (lines : list string) :
  let names := ["session_name"; "session_id"; "window_index"; "window_id"]
               ++ PANE_FORMATS in
  let args := [PStr "split-window"; PStr ("-t" +:+ py_str pane_id); PStr "-P";
               PStr ("-F" +:+ join (map (fun f => "#{" +:+ f +:+ "}" +:+ tab) names))]
              ++ (if truthy attach then [] else [PStr "-d"]) in
  let kwargs := filter (fun kv => kv.2 <> PStr "")
                  (dict_zip names (split tab_char line) ∅) in
  list_panes self st = (Ok (pane0 :: rest), st1) ->
  Pane_get pane0 "pane_id" (world st1) = (Ok pane_id, w2) ->
  server_tmux (server self) args w2 = (Ok p, w3) ->
  err_truthy (stderr p) = false ->
  stdout p = line :: lines ->
  split_window self attach st =
    ((Pane_new self kwargs w3).1,
     {| world := (Pane_new self kwargs w3).2;
        trace := trace st1 ++ [CallTmux args] |})
  /\ (List.NoDup names ->
      forall i name field, names !! i = Some name ->
        split tab_char line !! i = Some field ->
        kwargs !! name = if decide (field = "") then None else Some (PStr field)).
Proof.
  intros names args kwargs Hpanes Hid Htmux Herr Hout. split.
  - unfold split_window, bind. rewrite Hpanes.
    unfold of_outcome, first, call at 1. rewrite Hid.
    unfold tmux, server_call. cbn [world trace].
    replace (PStr "split-window" :: _) with args
      by (unfold args, names, pformats; destruct (truthy attach); reflexivity).
    rewrite Htmux, Herr, Hout. unfold call. cbn [world trace].
    rewrite drop_empty_strings
      by (apply dict_zip_strings; intros k v; rewrite lookup_empty; discriminate).
    change (filter _ (dict_zip pformats (split tab_char line) ∅)) with kwargs.
    destruct (Pane_new self kwargs w3). reflexivity.
  - intros Hnd i name field Hname Hfield. unfold kwargs.
    pose proof (dict_zip_lookup names _ ∅ i name field Hnd Hname Hfield) as Hz.
    destruct (decide (field = "")) as [->|Hne].
    + apply map_lookup_filter_None. right. intros x Hx Hp.
      rewrite Hz in Hx. injection Hx as <-. now apply Hp.
    + apply map_lookup_filter_Some. split; [exact Hz|]. simpl. congruence.
Qed.

End Panes.

(** C4 fails as stated: of the two rows below only the first is a pane
    of window [@1] in session [$0], yet [list_panes] does not return it:
    the second row has no ['session_id'] and the lookup raises
    [KeyError]; so does a row of the session without a ['window_id']. *)
Lemma list_panes_row_without_key :
  List.filter
    (fun p => field_is "session_id" (PStr "$0") p && field_is "window_id" (PStr "@1") p)
    [Scripted.pane_row "$0" "@1" "%1"; {[ "pane_id" := PStr "%2" ]}]
    = [Scripted.pane_row "$0" "@1" "%1"] /\
  (list_panes Scripted.win
     (Scripted.start (Scripted.prints [])
        [Scripted.pane_row "$0" "@1" "%1"; {[ "pane_id" := PStr "%2" ]}])).1
    = Raise (KeyError "session_id") /\
  (list_panes Scripted.win
     (Scripted.start (Scripted.prints [])
        [Scripted.pane_row "$0" "@1" "%1";
         {[ "session_id" := PStr "$0"; "pane_id" := PStr "%2" ]}])).1
    = Raise (KeyError "window_id").
Proof. repeat split; reflexivity. Qed.

(** ** Calls on the server object *)

Section Calls.
Context `{Collaborators}.

Lemma tmux_calls_app (t u : list Call) :
  tmux_calls (t ++ u) = tmux_calls t + tmux_calls u.
Proof. unfold tmux_calls. now rewrite List.filter_app, length_app. Qed.


Lemma quiet_filter_list {A : Type} (cond : A -> M bool) (l : list A) :
  (forall x st, trace (cond x st).2 = trace st) ->
  forall st, trace (filter_list cond l st).2 = trace st.
Proof.
  intros Hc. induction l as [|x l IH]; intros st; simpl; [reflexivity|].
  unfold bind at 1. specialize (Hc x st).
  destruct (cond x st) as [[b|e] st1]; cbn [snd] in *; [|exact Hc].
  unfold bind, ret. specialize (IH st1).
  destruct (filter_list cond l st1) as [[r|e] st2]; cbn [snd] in *; congruence.
Qed.


Lemma quiet_call {A : Type} (f : World -> Outcome A * World) (st : State) :
  trace (call f st).2 = trace st.
Proof. unfold call. now destruct (f (world st)). Qed.

Lemma quiet_condition (self : Window) (key : string) (p : dict) (st : State) :
  trace (bind (of_outcome (dict_getitem p key))
           (fun a => bind (call (mapping_get self key))
                       (fun b => ret (py_eq a b))) st).2 = trace st.
Proof.
  unfold bind, of_outcome, ret. destruct (dict_getitem p key); [|reflexivity].
  pose proof (quiet_call (mapping_get self key) st) as Hq.
  destruct (call (mapping_get self key) st) as [[b|e] st1]; exact Hq.
Qed.





Lemma _list_panes_trace (self : Window) (st : State) :
  trace (_list_panes self st).2 = trace st ++ [CallUpdatePanes].
Proof.
  unfold _list_panes. unfold bind at 1, server_call.
  destruct (server_update_panes (server self) (world st)) as [[rows|e] w1];
    [|reflexivity].
  set (st1 := {| world := w1; trace := trace st ++ [CallUpdatePanes] |}).
  change (trace st ++ [CallUpdatePanes]) with (trace st1).
  unfold bind at 1.
  pose proof (quiet_filter_list _ rows (quiet_condition self "session_id") st1) as H1.
  destruct (filter_list _ rows st1) as [[l1|e] st2]; cbn [snd] in *; [|exact H1].
  unfold bind, ret.
  pose proof (quiet_filter_list _ l1 (quiet_condition self "window_id") st2) as H2.
  destruct (filter_list _ l1 st2) as [[l2|e] st3]; cbn [snd] in *; congruence.
Qed.












End Calls.

(** ** What is written on standard error *)

Section Stderr.
Context `{Collaborators}.


End Stderr.


(** ** Runs on the scripted server *)

(** Two well-formed option lines give the dictionary of their pairs,
    the number as an integer; a superscript two is a digit that [int]
    refuses, and the refusal comes out. *)
Lemma show_window_options_pairs_witness :
  (exists d : dict,
     (show_window_options Scripted.win PNone
        (Scripted.start (Scripted.prints ["mode-keys vi"; "main-pane-width 80"]) [])).1
       = Ok (AllOptions d) /\
     d !! "mode-keys" = Some (PStr "vi") /\
     d !! "main-pane-width" = Some (PInt 80) /\
     d !! "mode" = None) /\
  (show_window_options Scripted.win PNone
     (Scripted.start (Scripted.prints ["a ²"]) [])).1 =
    Raise (ValueError "invalid literal for int() with base 10: '²'").
Proof.
  split.
  - destruct (show_window_options_pairs Scripted.win PNone
                (Scripted.start (Scripted.prints ["mode-keys vi"; "main-pane-width 80"]) [])
                (Scripted.prints ["mode-keys vi"; "main-pane-width 80"]) _
                [("mode-keys", "vi"); ("main-pane-width", "80")]
                eq_refl eq_refl eq_refl) as (_ & Hreturns & _).
    destruct Hreturns as (d & Hd & Hentries).
    + intros k s Hk Hdigit. cbn [fold_left fst snd] in Hk.
      apply lookup_insert_Some in Hk as [[_ <-]|[_ Hk]]; [now exists 80%Z|].
      apply lookup_insert_Some in Hk as [[_ <-]|[_ Hk]]; [discriminate Hdigit|].
      rewrite lookup_empty in Hk. discriminate Hk.
    + exists d. split; [exact Hd|]. split; [|split].
      * apply Hentries. exists "vi". split; [reflexivity|]. now right.
      * apply Hentries. exists "80". split; [reflexivity|]. left. split; [reflexivity|].
        now exists 80%Z.
      * destruct (d !! "mode") as [v|] eqn:Hv; [|reflexivity].
        apply Hentries in Hv as (s & Hs & _). discriminate Hs.
  - destruct (show_window_options_pairs Scripted.win PNone
                (Scripted.start (Scripted.prints ["a ²"]) [])
                (Scripted.prints ["a ²"]) _ [("a", "²")]
                eq_refl eq_refl eq_refl) as (_ & _ & Hraises).
    destruct Hraises as (k & s & e & Hk & _ & Hint & Hrun).
    + exists "a", "²". eexists. split; [|split]; reflexivity.
    + rewrite Hrun. cbn [fold_left fst snd] in Hk.
      apply lookup_insert_Some in Hk as [[_ <-]|[_ Hk]];
        [|rewrite lookup_empty in Hk; discriminate Hk].
      now injection Hint as <-.
Defined.

(** A value with a space in it makes the dictionary construction raise. *)
Lemma show_window_options_fields_witness :
  exists msg,
    (show_window_options Scripted.win PNone
       (Scripted.start (Scripted.prints ["status-left hello world"]) [])).1
    = Raise (ValueError msg).
Proof.
  apply (proj1 (show_window_options_fields Scripted.win PNone
                  (Scripted.start (Scripted.prints ["status-left hello world"]) [])
                  (Scripted.prints ["status-left hello world"]) _
                  eq_refl eq_refl)).
  constructor. simpl. lia.
Defined.

(** A numeric option comes back as an integer, also when its digits
    are Arabic-Indic; a superscript makes [int] raise. *)
Lemma show_window_option_value_witness :
  (show_window_option Scripted.win (PStr "main-pane-width")
     (Scripted.start (Scripted.prints ["main-pane-width 80"]) [])).1 = Ok (PInt 80) /\
  (show_window_option Scripted.win (PStr "a")
     (Scripted.start (Scripted.prints ["a ٣"]) [])).1 = Ok (PInt 3) /\
  (show_window_option Scripted.win (PStr "a")
     (Scripted.start (Scripted.prints ["a ²"]) [])).1 =
    Raise (ValueError "invalid literal for int() with base 10: '²'").
Proof.
  split; [|split].
  - apply (proj1 (show_window_option_value Scripted.win (PStr "main-pane-width")
                    (Scripted.start (Scripted.prints ["main-pane-width 80"]) [])
                    (Scripted.prints ["main-pane-width 80"]) _ eq_refl)).
  - apply (proj1 (show_window_option_value Scripted.win (PStr "a")
                    (Scripted.start (Scripted.prints ["a ٣"]) [])
                    (Scripted.prints ["a ٣"]) _ eq_refl)).
  - apply (proj1 (show_window_option_value Scripted.win (PStr "a")
                    (Scripted.start (Scripted.prints ["a ²"]) [])
                    (Scripted.prints ["a ²"]) _ eq_refl)).
Defined.

(** Window [@1] of session [$0] is addressed as [-t$0:@1]. *)
Lemma select_layout_args_witness :
  trace (select_layout Scripted.win (PStr "tiled")
           (Scripted.start (Scripted.prints []) [])).2 =
  [CallTmux [PStr "select-layout"; PStr "-t$0:@1"; PStr "tiled"]].
Proof.
  rewrite (proj2 (select_layout_args Scripted.win (PStr "tiled")
                    (Scripted.start (Scripted.prints []) []) "$0" "@1" _ _
                    eq_refl eq_refl)).
  reflexivity.
Defined.

(** [True] reaches tmux as ['on']. *)
Lemma set_window_option_on_off_witness :
  exists passed,
    trace (set_window_option Scripted.win (PStr "automatic-rename") (PBool true)
             (Scripted.start (Scripted.prints []) [])).2 =
      [CallTmux [PStr "set-window-option"; PStr "-t@1";
                 PStr "automatic-rename"; passed]]
    /\ passed = PStr "on".
Proof.
  destruct (set_window_option_on_off Scripted.win (PStr "automatic-rename")
              (PBool true) (Scripted.start (Scripted.prints []) []) (PStr "@1") _
              eq_refl) as (passed & Htrace & Hon & _).
  exists passed. split; [exact Htrace|]. apply Hon. reflexivity.
Defined.

(** Of four panes on the server, the two of window [@1] in session [$0]
    are listed, in order. *)
Lemma list_panes_filter_witness :
  (list_panes Scripted.win
     (Scripted.start (Scripted.prints [])
        [Scripted.pane_row "$0" "@1" "%1"; Scripted.pane_row "$0" "@2" "%2";
         Scripted.pane_row "$1" "@1" "%3"; Scripted.pane_row "$0" "@1" "%4"])).1 =
  Ok [Scripted.pane_row "$0" "@1" "%1"; Scripted.pane_row "$0" "@1" "%4"].
Proof.
  set (rows := [Scripted.pane_row "$0" "@1" "%1"; Scripted.pane_row "$0" "@2" "%2";
                Scripted.pane_row "$1" "@1" "%3"; Scripted.pane_row "$0" "@1" "%4"]).
  set (st := Scripted.start (Scripted.prints []) rows).
  assert (Hupd : server_update_panes (server Scripted.win) (world st)
                 = (Ok rows, world st)) by reflexivity.
  assert (Hsid : mapping_get Scripted.win "session_id" (world st)
                 = (Ok (PStr "$0"), world st)) by reflexivity.
  assert (Hwid : mapping_get Scripted.win "window_id" (world st)
                 = (Ok (PStr "@1"), world st)) by reflexivity.
  assert (Hs : Forall (fun p : dict => is_Some (p !! "session_id")) rows)
    by (repeat constructor; simpl; eauto).
  assert (Hw : Forall (fun p : dict => field_is "session_id" (PStr "$0") p = true ->
                                       is_Some (p !! "window_id")) rows)
    by (repeat constructor; simpl; eauto).
  destruct (list_panes_filter Scripted.win st rows (world st) (PStr "$0") (PStr "@1")
              Hupd Hsid Hwid Hs Hw) as [_ Hrun].
  etransitivity; [exact (f_equal fst Hrun)|]. reflexivity.
Defined.

(** The printed line of a new pane becomes its keyword arguments; the
    empty fields are left out. *)
Lemma split_window_pane_witness :
  (split_window Scripted.win (PBool true)
     (Scripted.start
        (Scripted.prints
           ["main" +:+ tab +:+ "$0" +:+ tab +:+ "1" +:+ tab +:+ "@1" +:+ tab +:+
            "" +:+ tab +:+ "%2" +:+ tab +:+ "1" +:+ tab +:+ "" +:+ tab])
        [Scripted.pane_row "$0" "@1" "%1"])).1 =
  Ok ({[ "session_name" := PStr "main"; "session_id" := PStr "$0";
         "window_index" := PStr "1"; "window_id" := PStr "@1";
         "pane_id" := PStr "%2"; "pane_active" := PStr "1" ]} : dict).
Proof.
  set (line := "main" +:+ tab +:+ "$0" +:+ tab +:+ "1" +:+ tab +:+ "@1" +:+ tab +:+
               "" +:+ tab +:+ "%2" +:+ tab +:+ "1" +:+ tab +:+ "" +:+ tab).
  pose (pane0 := Scripted.pane_row "$0" "@1" "%1" : @Pane Scripted.collaborators).
  set (st := Scripted.start (Scripted.prints [line]) [pane0]).
  assert (Hpanes : list_panes Scripted.win st
                   = (Ok [pane0], {| world := world st; trace := [CallUpdatePanes] |}))
    by reflexivity.
  assert (Hid : Pane_get pane0 "pane_id" (world st) = (Ok (PStr "%1"), world st))
    by reflexivity.
  destruct (split_window_pane Scripted.win (PBool true) st _ pane0 [] (PStr "%1")
              (world st) (world st) (Scripted.prints [line]) line []
              Hpanes Hid eq_refl eq_refl eq_refl) as [Hrun _].
  etransitivity; [exact (f_equal fst Hrun)|]. reflexivity.
Defined.


(** * Further properties *)

(** ** Splitting and the option dictionary *)

Lemma split_fields_without (sep : ascii) (s f : string) :
  In f (split sep s) -> occurs sep f = false.
Proof.
  revert f. induction s as [|c s IH]; simpl; intros f Hf.
  - destruct Hf as [<-|[]]. reflexivity.
  - destruct (Ascii.eqb c sep) eqn:Hc.
    + destruct Hf as [<-|Hf]; [reflexivity|now apply IH].
    + destruct (split_cons sep s) as (w & ws & Hs). rewrite Hs in *.
      destruct Hf as [<-|Hf]; simpl.
      * rewrite Hc. apply IH. now left.
      * apply IH. now right.
Qed.

(** X1: the fields that [s.split(sep)] yields, joined again with [sep],
    give [s] back, and no field contains [sep]: splitting a line loses
    nothing. *)
Theorem split_join (sep : ascii) (s : string) :
  String.concat (String sep EmptyString) (split sep s) = s
  /\ (forall f, In f (split sep s) -> occurs sep f = false).
Proof.
  split; [|intros f; apply split_fields_without].
  induction s as [|c s IH]; simpl; [reflexivity|].
  destruct (Ascii.eqb c sep) eqn:Hc.
  - apply Ascii.eqb_eq in Hc as ->.
    destruct (split_cons sep s) as (w & ws & Hs). rewrite Hs in *.
    simpl in *. now rewrite IH.
  - destruct (split_cons sep s) as (w & ws & Hs). rewrite Hs in *.
    destruct ws as [|w' ws]; simpl in *; now rewrite <- IH.
Qed.

Lemma find_app {A : Type} (f : A -> bool) (l1 l2 : list A) :
  List.find f (l1 ++ l2) =
  match List.find f l1 with
  | Some x => Some x
  | None => List.find f l2
  end.
Proof.
  induction l1 as [|x l1 IH]; simpl; [reflexivity|]. now destruct (f x).
Qed.

(** The dictionary built from pairs binds a name to the value of the
    last pair that has it. *)
Lemma fold_insert_lookup (pairs : list (string * string)) (d0 : gmap string string)
    (k : string) :
  fold_left (fun d nv => <[nv.1 := nv.2]> d) pairs d0 !! k =
  match List.find (fun nv => String.eqb nv.1 k) (rev pairs) with
  | Some nv => Some nv.2
  | None => d0 !! k
  end.
Proof.
  revert d0. induction pairs as [|[n v] pairs IH]; intros d0; simpl; [reflexivity|].
  rewrite IH, find_app.
  destruct (List.find _ (rev pairs)) as [nv|]; [reflexivity|]. simpl.
  destruct (String.eqb n k) eqn:Hn.
  - apply String.eqb_eq in Hn as ->. now rewrite lookup_insert_eq.
  - apply String.eqb_neq in Hn. now rewrite lookup_insert_ne.
Qed.

Lemma map_pairs_in (lines : list string) (pairs : list (string * string)) :
  map (split " ") lines = map (fun nv => [nv.1; nv.2]) pairs ->
  forall n v, In (n, v) pairs <-> exists line, In line lines /\ split " " line = [n; v].
Proof.
  revert pairs. induction lines as [|line lines IH]; intros [|[n0 v0] pairs] Hmap;
    try discriminate; simpl in *.
  - intros n v. split; [intros []|intros (l & [] & _)].
  - injection Hmap as Hline Hrest. intros n v. rewrite (IH _ Hrest). split.
    + intros [[= <- <-]|(l & Hl & Hs)]; eauto.
    + intros (l & [<-|Hl] & Hs); [left; congruence|right; eauto].
Qed.

Section Options.
Context `{Collaborators}.

(** A dictionary that [show_window_options] returns was read from
    pairs. *)
Lemma options_built (self : Window) (option : pyval) (st : State)
    (p : Process) (w' : World) (d : dict) :
  truthy option = false ->
  server_tmux (server self) [PStr "show-window-options"] (world st) = (Ok p, w') ->
  (show_window_options self option st).1 = Ok (AllOptions d) ->
  exists pairs : list (string * string),
    map (split " ") (stdout p) = map (fun nv => [nv.1; nv.2]) pairs /\
    forall k,
      match fold_left (fun m nv => <[nv.1 := nv.2]> m) pairs
              (∅ : gmap string string) !! k with
      | Some s => exists v, coerce s = Ok v /\ d !! k = Some v
      | None => d !! k = None
      end.
Proof.
  intros Hopt Htmux. rewrite (show_window_options_run _ _ _ _ _ Hopt Htmux). cbn [fst].
  destruct (parse_window_options (stdout p)) as [d'|e] eqn:Hparse; [|discriminate].
  intros [= ->]. destruct (parse_window_options_inv _ _ Hparse) as [pairs Hmap].
  exists pairs. split; [exact Hmap|].
  pose proof (parse_window_options_pairs _ _ Hmap) as Hd. now rewrite Hparse in Hd.
Qed.

(** Every entry of the dictionary comes from a line. *)
Lemma options_origin (self : Window) (option : pyval) (st : State)
    (p : Process) (w' : World) (d : dict) :
  truthy option = false ->
  server_tmux (server self) [PStr "show-window-options"] (world st) = (Ok p, w') ->
  (show_window_options self option st).1 = Ok (AllOptions d) ->
  forall k v, d !! k = Some v ->
    exists line s, In line (stdout p) /\ split " " line = [k; s] /\
                   coerce s = Ok v.
Proof.
  intros Hopt Htmux Hrun.
  destruct (options_built _ _ _ _ _ _ Hopt Htmux Hrun) as (pairs & Hmap & Hd).
  pose proof (map_pairs_in _ _ Hmap) as Hin.
  intros k v Hk. specialize (Hd k). rewrite fold_insert_lookup, lookup_empty in Hd.
  destruct (List.find _ (rev pairs)) as [[n s]|] eqn:Hfind; [|congruence].
  destruct Hd as (v' & Hv & Hk'). assert (v' = v) as -> by congruence.
  apply List.find_some in Hfind as [Hmem Hn]. simpl in *.
  apply String.eqb_eq in Hn as ->.
  apply in_rev, Hin in Hmem as (line & Hline & Hs). eauto.
Qed.

(** X2: when [show_window_options] returns a dictionary, each of its
    entries [k: v] comes from a stdout line [k s] with [v] what the
    coercion returns for [s], and the name of every stdout line is a
    key: no option is invented and none is lost. *)
Theorem show_window_options_entries (self : Window) (option : pyval) (st : State)
    (p : Process) (w' : World) (d : dict) :
  truthy option = false ->
  server_tmux (server self) [PStr "show-window-options"] (world st) = (Ok p, w') ->
  (show_window_options self option st).1 = Ok (AllOptions d) ->
  (forall k v, d !! k = Some v ->
     exists line s, In line (stdout p) /\ split " " line = [k; s] /\
                    coerce s = Ok v)
  /\ (forall line k s, In line (stdout p) -> split " " line = [k; s] ->
        is_Some (d !! k)).
Proof.
  intros Hopt Htmux Hrun.
  split; [exact (options_origin _ _ _ _ _ _ Hopt Htmux Hrun)|].
  destruct (options_built _ _ _ _ _ _ Hopt Htmux Hrun) as (pairs & Hmap & Hd).
  pose proof (map_pairs_in _ _ Hmap) as Hin.
  intros line k s Hline Hs. specialize (Hd k).
  rewrite fold_insert_lookup, lookup_empty in Hd.
  destruct (List.find _ (rev pairs)) as [nv|] eqn:Hfind.
  - destruct Hd as (v & _ & ->). eauto.
  - exfalso. assert (Hmem : In (k, s) (rev pairs)).
    { rewrite <- in_rev. apply Hin. eauto. }
    apply (List.find_none _ _ Hfind) in Hmem. simpl in Hmem.
    now rewrite String.eqb_refl in Hmem.
Qed.

(** X3: in the dictionary [show_window_options] returns no key
    contains a space, and every value is either the integer that [int]
    returned for a field without a space that [isdigit] accepts, or a
    string without a space that [isdigit] rejects. *)
Theorem show_window_options_values (self : Window) (option : pyval) (st : State)
    (p : Process) (w' : World) (d : dict) :
  truthy option = false ->
  server_tmux (server self) [PStr "show-window-options"] (world st) = (Ok p, w') ->
  (show_window_options self option st).1 = Ok (AllOptions d) ->
  forall k v, d !! k = Some v ->
    occurs " " k = false /\
    ((exists s n, v = PInt n /\ isdigit s = true /\ int s = Ok n /\
                  occurs " " s = false) \/
     (exists s, v = PStr s /\ isdigit s = false /\ occurs " " s = false)).
Proof.
  intros Hopt Htmux Hrun k v Hk.
  destruct (options_origin _ _ _ _ _ _ Hopt Htmux Hrun k v Hk)
    as (line & s & Hline & Hs & Hv).
  assert (Hfields : forall f, In f [k; s] -> occurs " " f = false).
  { rewrite <- Hs. intros f. apply split_fields_without. }
  split; [apply Hfields; now left|].
  assert (Hspace : occurs " " s = false) by (apply Hfields; right; now left).
  apply coerce_ok in Hv as [(Hdigit & n & Hint & ->)|[Hdigit ->]].
  - left. exists s, n. auto.
  - right. exists s. auto.
Qed.

(** The last line that names an option decides its value. *)
Lemma options_last (self : Window) (option : pyval) (st : State)
    (p : Process) (w' : World) (d : dict)
    (before after : list string) (line k s : string) :
  truthy option = false ->
  server_tmux (server self) [PStr "show-window-options"] (world st) = (Ok p, w') ->
  (show_window_options self option st).1 = Ok (AllOptions d) ->
  stdout p = before ++ line :: after ->
  split " " line = [k; s] ->
  (forall later s', In later after -> split " " later <> [k; s']) ->
  exists v, coerce s = Ok v /\ d !! k = Some v.
Proof.
  intros Hopt Htmux Hrun Hout Hs Hafter.
  destruct (options_built _ _ _ _ _ _ Hopt Htmux Hrun) as (pairs & Hmap & Hd).
  specialize (Hd k). rewrite fold_insert_lookup, lookup_empty in Hd.
  rewrite Hout, map_app in Hmap. symmetry in Hmap.
  apply map_eq_app in Hmap as (p1 & p2' & -> & Hm1 & Hm2).
  simpl in Hm2. apply map_eq_cons in Hm2 as ([n v] & p2 & -> & Hnv & Hm2).
  simpl in Hnv. rewrite Hs in Hnv. injection Hnv as -> ->.
  rewrite rev_app_distr in Hd. simpl in Hd.
  rewrite <- app_assoc, find_app in Hd.
  destruct (List.find _ (rev p2)) as [[n' v']|] eqn:Hfind.
  - exfalso. apply List.find_some in Hfind as [Hmem Hn]. simpl in Hn.
    apply String.eqb_eq in Hn as ->. rewrite <- in_rev in Hmem.
    destruct (proj1 (map_pairs_in after p2 (eq_sym Hm2) k v') Hmem) as (l & Hl & Hsl).
    exact (Hafter l v' Hl Hsl).
  - simpl in Hd. rewrite String.eqb_refl in Hd. exact Hd.
Qed.

(** X4: when several stdout lines name the same option, the dictionary
    of [show_window_options] holds what the coercion returns for the
    value of the last of them. *)
Theorem show_window_options_last (self : Window) (option : pyval) (st : State)
    (p : Process) (w' : World) (d : dict)
    (before after : list string) (line k s : string) :
  truthy option = false ->
  server_tmux (server self) [PStr "show-window-options"] (world st) = (Ok p, w') ->
  (show_window_options self option st).1 = Ok (AllOptions d) ->
  stdout p = before ++ line :: after ->
  split " " line = [k; s] ->
  (forall later s', In later after -> split " " later <> [k; s']) ->
  exists v, coerce s = Ok v /\ d !! k = Some v.
Proof. apply options_last. Qed.

(** X5: when the first stdout line is [k s] and no later line names
    [k], [show_window_option] returns the very value that
    [show_window_options] stores under [k] for the same output. *)
Theorem show_methods_agree (self : Window) (option name : pyval) (st : State)
    (p : Process) (w1 w2 : World) (d : dict) (line k s : string)
    (rest : list string) :
  truthy option = false ->
  server_tmux (server self) [PStr "show-window-options"] (world st) = (Ok p, w1) ->
  server_tmux (server self) [PStr "show-window-options"; name] (world st)
    = (Ok p, w2) ->
  (show_window_options self option st).1 = Ok (AllOptions d) ->
  stdout p = line :: rest ->
  split " " line = [k; s] ->
  (forall later s', In later rest -> split " " later <> [k; s']) ->
  exists v, (show_window_option self name st).1 = Ok v /\ d !! k = Some v.
Proof.
  intros Hopt Htmux1 Htmux2 Hrun Hout Hs Hrest.
  destruct (options_last _ _ _ _ _ _ [] rest line k s Hopt Htmux1 Hrun Hout Hs Hrest)
    as (v & Hv & Hk).
  exists v. split; [|exact Hk].
  unfold show_window_option, tmux. run. rewrite Htmux2, Hout. simpl.
  now rewrite Hs.
Qed.

End Options.

(** ** Listing panes *)

Section Listing.
Context `{Collaborators}.

(** X6: while [self.get] keeps answering, [list_panes] raises
    [KeyError('session_id')] when some pane row of the server has no
    ['session_id'], and [KeyError('window_id')] when every row has one
    but a row of this session has no ['window_id']. *)
Theorem list_panes_missing_key (self : Window) (st : State) (rows : list dict)
    (w1 : World) (session_id window_id : pyval) :
  server_update_panes (server self) (world st) = (Ok rows, w1) ->
  mapping_get self "session_id" w1 = (Ok session_id, w1) ->
  mapping_get self "window_id" w1 = (Ok window_id, w1) ->
  (Exists (fun p : dict => p !! "session_id" = None) rows ->
   (list_panes self st).1 = Raise (KeyError "session_id"))
  /\ (Forall (fun p : dict => is_Some (p !! "session_id")) rows ->
      Exists (fun p : dict => field_is "session_id" session_id p = true /\
                              p !! "window_id" = None) rows ->
      (list_panes self st).1 = Raise (KeyError "window_id")).
Proof.
  intros Hupd Hsid Hwid.
  pose proof (_list_panes_run self st rows w1 _ _ Hupd Hsid Hwid) as Hrun.
  unfold list_panes, bind. rewrite Hrun. split.
  - intros Hex.
    destruct (forallb _ rows) eqn:Hall; [|reflexivity]. exfalso.
    rewrite forallb_forall in Hall. apply List.Exists_exists in Hex as (p & Hp & Hnone).
    specialize (Hall p Hp). rewrite Hnone in Hall.
    apply bool_decide_eq_true in Hall. destruct Hall as [? ?]. discriminate.
  - intros Hall Hex.
    assert (Hall' : forallb (fun p : dict => bool_decide (is_Some (p !! "session_id")))
                      rows = true).
    { apply forallb_forall. intros p Hp. apply bool_decide_eq_true.
      rewrite Forall_forall in Hall. apply Hall. now apply list_elem_of_In. }
    rewrite Hall'.
    destruct (forallb _ (List.filter _ rows)) eqn:Hw; [|reflexivity]. exfalso.
    rewrite forallb_forall in Hw. apply List.Exists_exists in Hex as (p & Hp & Hs & Hnone).
    specialize (Hw p). rewrite Hnone in Hw.
    assert (Hin : In p (List.filter (field_is "session_id" session_id) rows))
      by (apply filter_In; now split).
    apply Hw, bool_decide_eq_true in Hin. destruct Hin as [? ?]. discriminate.
Qed.

(** X7: rows of other sessions are dropped before their ['window_id']
    is looked at: [_list_panes] returns the filtered rows as soon as
    every row has a ['session_id'] and the rows of this session have a
    ['window_id']. *)
Theorem list_panes_other_sessions (self : Window) (st : State) (rows : list dict)
    (w1 : World) (session_id window_id : pyval) :
  server_update_panes (server self) (world st) = (Ok rows, w1) ->
  mapping_get self "session_id" w1 = (Ok session_id, w1) ->
  mapping_get self "window_id" w1 = (Ok window_id, w1) ->
  Forall (fun p : dict => is_Some (p !! "session_id")) rows ->
  Forall (fun p : dict => field_is "session_id" session_id p = true ->
                          is_Some (p !! "window_id")) rows ->
  _list_panes self st =
    (Ok (List.filter (fun p => field_is "session_id" session_id p &&
                               field_is "window_id" window_id p) rows),
     {| world := w1; trace := trace st ++ [CallUpdatePanes] |}).
Proof.
  intros Hupd Hsid Hwid Hs Hw.
  rewrite (_list_panes_run self st rows w1 _ _ Hupd Hsid Hwid).
  rewrite Forall_forall in Hs. rewrite Forall_forall in Hw.
  replace (forallb _ rows) with true.
  - replace (forallb _ (List.filter _ rows)) with true; [reflexivity|].
    symmetry. apply forallb_forall. intros p Hp. apply filter_In in Hp as [Hp Hf].
    apply bool_decide_eq_true. apply Hw; [now apply list_elem_of_In|exact Hf].
  - symmetry. apply forallb_forall. intros p Hp. apply bool_decide_eq_true.
    apply Hs. now apply list_elem_of_In.
Qed.

(** X8: when the server lists no pane at all, [list_panes] returns the
    empty list and [attached_pane] returns [None], without asking the
    window for its ids. *)
Theorem list_panes_empty (self : Window) (st : State) (w1 : World) :
  server_update_panes (server self) (world st) = (Ok [], w1) ->
  let st1 := {| world := w1; trace := trace st ++ [CallUpdatePanes] |} in
  list_panes self st = (Ok [], st1)
  /\ attached_pane self st = (Ok None, st1).
Proof.
  intros Hupd st1.
  assert (Hrows : _list_panes self st = (Ok [], st1)).
  { unfold _list_panes, bind, server_call. now rewrite Hupd. }
  unfold list_panes, attached_pane, bind. now rewrite Hrows.
Qed.

(** The loop of [attached_pane] is a search for the first row whose
    ['pane_active'] is ['1']. *)
Lemma first_active_find (self : Window) (panes : list dict) (st : State) :
  first_active self panes st =
  match List.find (field_is "pane_active" (PStr "1")) panes with
  | None => (Ok None, st)
  | Some row =>
      (match (Pane_new self row (world st)).1 with
       | Ok pane => Ok (Some pane)
       | Raise e => Raise e
       end,
       {| world := (Pane_new self row (world st)).2; trace := trace st |})
  end.
Proof.
  induction panes as [|pane rest IH]; simpl; [reflexivity|].
  unfold field_is at 1.
  destruct (pane !! "pane_active") as [active|]; [|exact IH].
  destruct (py_eq active (PStr "1")); [|exact IH].
  unfold bind, call. now destruct (Pane_new self pane (world st)) as [[pn|e] w].
Qed.

(** X9: [attached_pane] returns [None] when no pane of the window has
    ['pane_active'] equal to ['1'], and otherwise wraps the first such
    pane, in the order of the listing; no other pane is wrapped. *)
Theorem attached_pane_first_active (self : Window) (st st1 : State)
    (mine : list dict) :
  _list_panes self st = (Ok mine, st1) ->
  (Forall (fun p : dict => field_is "pane_active" (PStr "1") p = false) mine ->
   attached_pane self st = (Ok None, st1))
  /\ (forall before row after,
        mine = before ++ row :: after ->
        Forall (fun p : dict => field_is "pane_active" (PStr "1") p = false) before ->
        field_is "pane_active" (PStr "1") row = true ->
        attached_pane self st =
          (match (Pane_new self row (world st1)).1 with
           | Ok pane => Ok (Some pane)
           | Raise e => Raise e
           end,
           {| world := (Pane_new self row (world st1)).2; trace := trace st1 |})).
Proof.
  intros Hrows. unfold attached_pane, bind. rewrite Hrows, first_active_find. split.
  - intros Hnone. destruct (List.find _ mine) as [row|] eqn:Hfind; [|reflexivity].
    apply List.find_some in Hfind as [Hin Hact]. rewrite Forall_forall in Hnone.
    rewrite Hnone in Hact by now apply list_elem_of_In. discriminate.
  - intros before row after -> Hbefore Hrow. rewrite find_app.
    destruct (List.find _ before) as [r|] eqn:Hfind.
    + apply List.find_some in Hfind as [Hin Hact]. rewrite Forall_forall in Hbefore.
      rewrite Hbefore in Hact by now apply list_elem_of_In. discriminate.
    + simpl. now rewrite Hrow.
Qed.

End Listing.

(** ** Failures and the order of calls *)

Section Failures.
Context `{Collaborators}.

(** X10: [rename_window] invokes tmux at most once in its [try]
    block.  Either an exception outside [Exception] comes out of that
    block and out of the method, or the method goes on to call
    [server._update_windows()], exactly once, and returns the window
    unless that refresh itself raises. *)
Theorem rename_window_always_refreshes (self : Window) (new_name : string)
    (st : State) :
  exists t : list Call,
    (t = [] \/ exists args, t = [CallTmux args]) /\
    ((exists name,
        (rename_window self new_name st).1 = Raise (BaseException name) /\
        trace (rename_window self new_name st).2 = trace st ++ t)
     \/ (exists w : World,
           trace (rename_window self new_name st).2 =
             trace st ++ t ++ [CallUpdateWindows] /\
           (rename_window self new_name st).1 =
             match (server_update_windows (server self) w).1 with
             | Ok _ => Ok self
             | Raise e => Raise e
             end)).
Proof.
  unfold rename_window, target, tmux, bind, try_except, call, server_call, ret.
  cbn [world trace].
  destruct (session_get (session self) "session_id" (world st)) as [[sid|e1] w1];
    cbn [world trace];
    [destruct (mapping_get self "window_id" w1) as [[wid|e2] w2]; cbn [world trace];
      [destruct (server_tmux _ _ w2) as [[p|e3] w3]; cbn [world trace];
        [destruct (mapping_setitem self "window_name" (PStr new_name) w3)
           as [[u|e4] w4]; cbn [world trace]|]|]|].
  all: try match goal with
           | |- context [is_exception ?e] =>
               destruct (is_exception e) eqn:Hexc;
               [|destruct e; try discriminate Hexc]
           end.
  all: try match goal with
           | |- context [server_update_windows ?srv ?w] =>
               destruct (server_update_windows srv w) as [[u'|e'] w'] eqn:Hupd
           end.
  all: cbn [fst snd world trace].
  all: first
    [ solve [exists []; split; [now left|]; left; rewrite app_nil_r; eauto]
    | solve [eexists [_]; split; [right; eauto|]; left; eauto]
    | solve [exists []; split; [now left|]; right; eexists; rewrite Hupd; split; reflexivity]
    | solve [eexists [_]; split; [right; eauto|]; right; eexists; rewrite Hupd;
             split; [now rewrite <- app_assoc|reflexivity]] ].
Qed.

(** X11: when the tmux invocation of [rename_window] raises an
    [Exception], the exception is dropped and the new name is not
    stored: the refresh runs on the world the failed invocation left.
    What is raised outside [Exception] comes out, and nothing is
    refreshed. *)
Theorem rename_window_tmux_raises (self : Window) (new_name t : string)
    (st st1 : State) (e : exn) (w2 : World) :
  target self st = (Ok t, st1) ->
  server_tmux (server self)
    [PStr "rename-window"; PStr ("-t" +:+ t); PStr new_name] (world st1)
    = (Raise e, w2) ->
  rename_window self new_name st =
    if is_exception e then
      (match (server_update_windows (server self) w2).1 with
       | Ok _ => Ok self
       | Raise e' => Raise e'
       end,
       {| world := (server_update_windows (server self) w2).2;
          trace := trace st1 ++
                   [CallTmux [PStr "rename-window"; PStr ("-t" +:+ t); PStr new_name];
                    CallUpdateWindows] |})
    else
      (Raise e,
       {| world := w2;
          trace := trace st1 ++
                   [CallTmux [PStr "rename-window"; PStr ("-t" +:+ t);
                              PStr new_name]] |}).
Proof.
  intros Ht Htmux. unfold rename_window, bind, try_except. rewrite Ht.
  unfold tmux, server_call at 1. rewrite Htmux.
  destruct (is_exception e); [|reflexivity].
  unfold ret, server_call. cbn [world trace]. rewrite <- app_assoc.
  now destruct (server_update_windows (server self) w2) as [[u|e'] w3].
Qed.

(** X12: when [rename_window] cannot form its target because of an
    [Exception], it invokes neither tmux nor the setter, refreshes the
    window list and returns as usual; what is raised outside
    [Exception] comes out at once. *)
Theorem rename_window_no_target (self : Window) (new_name : string)
    (st st1 : State) (e : exn) :
  target self st = (Raise e, st1) ->
  rename_window self new_name st =
    if is_exception e then
      (match (server_update_windows (server self) (world st1)).1 with
       | Ok _ => Ok self
       | Raise e' => Raise e'
       end,
       {| world := (server_update_windows (server self) (world st1)).2;
          trace := trace st1 ++ [CallUpdateWindows] |})
    else (Raise e, st1).
Proof.
  intros Ht. unfold rename_window, bind, try_except. rewrite Ht.
  destruct (is_exception e); [|reflexivity].
  unfold ret, server_call.
  now destruct (server_update_windows (server self) (world st1)) as [[u|e'] w3].
Qed.

(** X13: [select_pane] invokes tmux first; on a non-empty stderr it
    raises without refreshing the panes, and otherwise its result is
    that of [attached_pane] run after the invocation. *)
Theorem select_pane_then_attached (self : Window) (target_pane : pyval)
    (st : State) (p : Process) (w' : World) :
  server_tmux (server self)
    [PStr "select-pane"; PStr ("-t" +:+ py_str target_pane)] (world st) = (Ok p, w') ->
  let st' := {| world := w';
                trace := trace st ++
                  [CallTmux [PStr "select-pane";
                             PStr ("-t" +:+ py_str target_pane)]] |} in
  select_pane self target_pane st =
    if err_truthy (stderr p) then (Raise (Exception (stderr p)), st')
    else attached_pane self st'.
Proof.
  intros Htmux st'. unfold select_pane, bind, tmux, server_call. rewrite Htmux.
  fold st'. now destruct (err_truthy (stderr p)).
Qed.

(** X14: once the window id is read and tmux has answered,
    [set_window_option] returns [None] exactly when stderr is empty, and
    in both cases tmux was invoked once. *)
Theorem set_window_option_none_iff (self : Window) (option value : pyval)
    (st : State) (wid : pyval) (w1 w2 : World) (p : Process) :
  mapping_getitem self "window_id" (world st) = (Ok wid, w1) ->
  server_tmux (server self)
    [PStr "set-window-option"; PStr ("-t" +:+ py_str wid); option; on_off value] w1
    = (Ok p, w2) ->
  ((set_window_option self option value st).1 = Ok tt <->
   err_truthy (stderr p) = false)
  /\ (set_window_option self option value st).2 =
       {| world := w2;
          trace := trace st ++
            [CallTmux [PStr "set-window-option"; PStr ("-t" +:+ py_str wid);
                       option; on_off value]] |}.
Proof.
  intros Hwid Htmux. unfold set_window_option, bind, call, tmux, server_call.
  rewrite Hwid. cbn [world trace]. rewrite Htmux.
  destruct (err_truthy (stderr p)); unfold raise, ret; cbn [fst snd];
    repeat split; congruence.
Qed.

(** X15: when [self['window_id']] raises, [set_window_option] raises
    the same exception and never invokes tmux. *)
Theorem set_window_option_no_id (self : Window) (option value : pyval)
    (st : State) (e : exn) (w1 : World) :
  mapping_getitem self "window_id" (world st) = (Raise e, w1) ->
  set_window_option self option value st =
    (Raise e, {| world := w1; trace := trace st |}).
Proof.
  intros Hwid. unfold set_window_option, bind, call. now rewrite Hwid.
Qed.

(** X17: a session without a ['session_id'] is no error for [target]:
    [None] is formatted as the text [None], and [select_layout] hands
    [-tNone:...] to tmux. *)
Theorem target_of_missing_ids (self : Window) (layout : pyval) (st : State)
    (window_id : pyval) (w1 w2 : World) :
  session_get (session self) "session_id" (world st) = (Ok PNone, w1) ->
  mapping_get self "window_id" w1 = (Ok window_id, w2) ->
  (target self st).1 = Ok ("None:" +:+ py_str window_id)
  /\ trace (select_layout self layout st).2 =
       trace st ++ [CallTmux [PStr "select-layout";
                              PStr ("-tNone:" +:+ py_str window_id); layout]].
Proof.
  intros Hs Hw.
  assert (Ht : target self st = (Ok ("None:" +:+ py_str window_id),
                                 {| world := w2; trace := trace st |})).
  { unfold target, bind, call, ret. rewrite Hs. cbn [world trace]. now rewrite Hw. }
  split; [now rewrite Ht|].
  unfold select_layout, bind. rewrite Ht. unfold tmux, server_call. cbn [world trace].
  now destruct (server_tmux _ _ w2) as [[p|e] w3].
Qed.

End Failures.

(** ** Splitting a window *)

Lemma occurs_app (c : ascii) (a b : string) :
  occurs c (a +:+ b) = occurs c a || occurs c b.
Proof.
  induction a as [|x a IH]; simpl; [reflexivity|]. now rewrite IH, orb_assoc.
Qed.

Lemma append_assoc (a b c : string) : (a +:+ b) +:+ c = a +:+ (b +:+ c).
Proof.
  induction a as [|x a IH]; [reflexivity|].
  change (String x ((a +:+ b) +:+ c) = String x (a +:+ (b +:+ c))). now rewrite IH.
Qed.

Lemma format_field (f rest : string) :
  ("#{" +:+ f +:+ "}" +:+ tab) +:+ rest =
  ("#{" +:+ f +:+ "}") +:+ String tab_char rest.
Proof.
  change (String "#" (String "{" ((f +:+ ("}" +:+ tab)) +:+ rest)) =
          String "#" (String "{" ((f +:+ "}") +:+ String tab_char rest))).
  now rewrite !append_assoc.
Qed.

(** The format handed to [-F], cut at the tabs, is the list of the
    [#{name}] in order, followed by an empty field. *)
Lemma split_format (names : list string) :
  Forall (fun f => occurs tab_char f = false) names ->
  split tab_char (join (map (fun f => "#{" +:+ f +:+ "}" +:+ tab) names)) =
  map (fun f => "#{" +:+ f +:+ "}") names ++ [""].
Proof.
  induction 1 as [|f names Hf Hnames IH]; [reflexivity|].
  cbn [map]. unfold join in *. cbn [fold_right].
  rewrite format_field, split_app, IH, split_without; [reflexivity|].
  now rewrite !occurs_app, Hf.
Qed.

Lemma dict_zip_keys (keys values : list string) (d : dict) (k : string) (v : pyval) :
  dict_zip keys values d !! k = Some v ->
  (exists s, In k keys /\ In s values /\ v = PStr s) \/ d !! k = Some v.
Proof.
  revert values d. induction keys as [|k0 keys IH]; intros [|v0 values] d Hk;
    simpl in *; auto.
  destruct (IH _ _ Hk) as [(s & Hin & Hs & ->)|Hd].
  - left. exists s. auto.
  - destruct (decide (k0 = k)) as [->|Hne].
    + rewrite lookup_insert_eq in Hd. injection Hd as <-. left. exists v0. auto.
    + rewrite lookup_insert_ne in Hd by assumption. now right.
Qed.

Lemma dict_zip_short (keys values : list string) (d : dict) (i : nat) (k : string) :
  List.NoDup keys -> keys !! i = Some k -> length values <= i ->
  dict_zip keys values d !! k = d !! k.
Proof.
  revert values d i.
  induction keys as [|k0 keys IH]; intros values d i Hnd Hk Hlen; [discriminate|].
  destruct values as [|v0 values]; [reflexivity|]. simpl in *.
  destruct i as [|i]; [lia|]. inversion Hnd as [|? ? Hnotin Hnd']; subst.
  rewrite (IH values _ i Hnd' Hk) by lia.
  apply lookup_insert_ne. intros ->. apply Hnotin.
  apply list_elem_of_In, list_elem_of_lookup. eauto.
Qed.

Section Splitting.
Context `{Collaborators}.

(** X18: on a window without panes [split_window] raises [IndexError]
    after the refresh of the panes, and tmux is never invoked. *)
Theorem split_window_no_panes (self : Window) (attach : pyval) (st st1 : State) :
  _list_panes self st = (Ok [], st1) ->
  split_window self attach st = (Raise IndexError, st1)
  /\ spawned (split_window self attach) st = 0.
Proof.
  intros Hrows.
  assert (Hrun : split_window self attach st = (Raise IndexError, st1)).
  { unfold split_window, list_panes, bind. now rewrite Hrows. }
  split; [exact Hrun|]. unfold spawned. rewrite Hrun. cbn [snd].
  pose proof (_list_panes_trace self st) as Ht.
  rewrite Hrows in Ht. cbn [snd] in Ht. rewrite Ht, tmux_calls_app. cbn. lia.
Qed.

(** X19: when the split-window subprocess prints nothing and stderr
    is empty, [split_window] raises [IndexError] after tmux has been
    invoked. *)
Theorem split_window_no_output (self : Window) (attach : pyval) (st st1 : State)
    (pane0 : Pane) (rest : list Pane) (pane_id : pyval) (w2 w3 : World)
    (p : Process) :
  let names := ["session_name"; "session_id"; "window_index"; "window_id"]
               ++ PANE_FORMATS in
  let args := [PStr "split-window"; PStr ("-t" +:+ py_str pane_id); PStr "-P";
               PStr ("-F" +:+ join (map (fun f => "#{" +:+ f +:+ "}" +:+ tab) names))]
              ++ (if truthy attach then [] else [PStr "-d"]) in
  list_panes self st = (Ok (pane0 :: rest), st1) ->
  Pane_get pane0 "pane_id" (world st1) = (Ok pane_id, w2) ->
  server_tmux (server self) args w2 = (Ok p, w3) ->
  err_truthy (stderr p) = false ->
  stdout p = [] ->
  split_window self attach st =
    (Raise IndexError, {| world := w3; trace := trace st1 ++ [CallTmux args] |}).
Proof.
  intros names args Hpanes Hid Htmux Herr Hout.
  unfold split_window, bind. rewrite Hpanes.
  unfold of_outcome, first, call at 1. rewrite Hid.
  unfold tmux, server_call. cbn [world trace].
  replace (PStr "split-window" :: _) with args
    by (unfold args, names, pformats; destruct (truthy attach); reflexivity).
  now rewrite Htmux, Herr, Hout.
Qed.

(** X20: once the id of the first pane is read, [split_window] invokes
    tmux exactly once whatever the answer, and [-d] is among the
    arguments exactly when [attach] is falsy. *)
Theorem split_window_detach (self : Window) (attach : pyval) (st st1 : State)
    (pane0 : Pane) (rest : list Pane) (pane_id : pyval) (w2 : World) :
  let names := ["session_name"; "session_id"; "window_index"; "window_id"]
               ++ PANE_FORMATS in
  let args := [PStr "split-window"; PStr ("-t" +:+ py_str pane_id); PStr "-P";
               PStr ("-F" +:+ join (map (fun f => "#{" +:+ f +:+ "}" +:+ tab) names))]
              ++ (if truthy attach then [] else [PStr "-d"]) in
  list_panes self st = (Ok (pane0 :: rest), st1) ->
  Pane_get pane0 "pane_id" (world st1) = (Ok pane_id, w2) ->
  trace (split_window self attach st).2 = trace st1 ++ [CallTmux args]
  /\ (In (PStr "-d") args <-> truthy attach = false).
Proof.
  intros names args Hpanes Hid. split.
  - unfold split_window, bind. rewrite Hpanes.
    unfold of_outcome, first, call at 1. rewrite Hid.
    unfold tmux, server_call. cbn [world trace].
    replace (PStr "split-window" :: _) with args
      by (unfold args, names, pformats; destruct (truthy attach); reflexivity).
    destruct (server_tmux (server self) args w2) as [[p|e] w3]; [|reflexivity].
    destruct (err_truthy (stderr p)); [reflexivity|].
    destruct (stdout p) as [|line lines]; [reflexivity|].
    unfold call. cbn [world trace]. now destruct (Pane_new _ _ w3).
  - unfold args. rewrite in_app_iff. split.
    + intros [Hbase|Hflag].
      * cbv [String.append] in Hbase.
        destruct Hbase as [Hx|[Hx|[Hx|[Hx|[]]]]]; discriminate.
      * destruct (truthy attach); [destruct Hflag|reflexivity].
    + intros ->. right. now left.
Qed.

(** X21: when no format name contains a tab, the format handed to
    [-F], cut at the tabs, is the list of the [#{name}] for the names
    that [split_window] zips the answer with, in the same order,
    followed by one empty field. *)
Theorem split_window_format_fields :
  Forall (fun f => occurs tab_char f = false) PANE_FORMATS ->
  split tab_char (join (map (fun f => "#{" +:+ f +:+ "}" +:+ tab) pformats)) =
  map (fun f => "#{" +:+ f +:+ "}") pformats ++ [""].
Proof.
  intros Hfmt. apply split_format. unfold pformats.
  apply Forall_app. split; [|exact Hfmt]. repeat constructor.
Qed.

(** X22: every keyword argument [split_window] builds for the new
    [Pane] is one of the format names, bound to a non-empty field of the
    printed line that contains no tab. *)
Theorem split_window_kwargs (line : string) (k : string) (v : pyval) :
  drop_empty (dict_zip pformats (split tab_char line) ∅) !! k = Some v ->
  In k pformats /\
  exists s, v = PStr s /\ s <> "" /\ In s (split tab_char line) /\
            occurs tab_char s = false.
Proof.
  unfold drop_empty. intros Hk. apply map_lookup_filter_Some in Hk as [Hk Hv].
  simpl in Hv. destruct (dict_zip_keys _ _ _ _ _ Hk) as [(s & Hin & Hs & ->)|He].
  - split; [exact Hin|]. exists s. repeat split; try assumption.
    + intros ->. discriminate.
    + eapply split_fields_without, Hs.
  - rewrite lookup_empty in He. discriminate.
Qed.

(** X23: when the printed line has fewer fields than there are names,
    a name beyond the last field gets no keyword argument. *)
Theorem split_window_short_line (line : string) (i : nat) (name : string) :
  List.NoDup pformats -> pformats !! i = Some name ->
  length (split tab_char line) <= i ->
  drop_empty (dict_zip pformats (split tab_char line) ∅) !! name = None.
Proof.
  intros Hnd Hname Hlen. unfold drop_empty.
  apply map_lookup_filter_None. left.
  rewrite (dict_zip_short _ _ _ i name Hnd Hname Hlen). apply lookup_empty.
Qed.

End Splitting.

(** ** The row of the window *)

Lemma py_eq_sym (a b : pyval) : py_eq a b = py_eq b a.
Proof.
  destruct a as [|x|n|s], b as [|y|m|t]; simpl; try reflexivity.
  - now destruct x, y.
  - apply Z.eqb_sym.
  - apply String.eqb_sym.
Qed.

(** The head of a filtered list is the first element that passes. *)
Lemma first_filter {A : Type} (f : A -> bool) (l : list A) :
  first (List.filter f l) =
  match List.find f l with
  | Some x => Ok x
  | None => Raise IndexError
  end.
Proof.
  induction l as [|x l IH]; simpl; [reflexivity|]. now destruct (f x).
Qed.

Section RowFacts.
Context `{WindowRows}.

(** The filter of [_TMUX] keeps the rows whose ['window_id'] is the
    stored id. *)
Lemma by_window_id (self : Window) (val : dict) :
  truthy (by_ [("window_id", _window_id self)] val) =
  field_is "window_id" (_window_id self) val.
Proof.
  unfold by_, field_is. destruct (val !! "window_id") as [v|]; [|reflexivity].
  rewrite (py_eq_sym v). now destruct (py_eq (_window_id self) v).
Qed.

Lemma _TMUX_find (self : Window) (st : State) :
  _TMUX self st =
  (match List.find (field_is "window_id" (_window_id self))
           (server_windows (server self) (world st)) with
   | Some row => Ok row
   | None => Raise IndexError
   end, st).
Proof.
  unfold _TMUX, bind, read, of_outcome. f_equal.
  rewrite (List.filter_ext _ _ (by_window_id self)). apply first_filter.
Qed.

(** X24: [_TMUX] returns the first row of [server._windows] whose
    ['window_id'] equals the stored id, skipping rows without that key,
    and a row it returns is one of the server's rows with that id. *)
Theorem _TMUX_first_match (self : Window) (st : State) :
  let mine := field_is "window_id" (_window_id self) in
  (forall before row after,
     server_windows (server self) (world st) = before ++ row :: after ->
     Forall (fun r => mine r = false) before -> mine row = true ->
     _TMUX self st = (Ok row, st))
  /\ (forall row, (_TMUX self st).1 = Ok row ->
        In row (server_windows (server self) (world st)) /\
        exists v, row !! "window_id" = Some v /\ py_eq v (_window_id self) = true).
Proof.
  intros mine. rewrite _TMUX_find. fold mine. split.
  - intros before row after -> Hbefore Hrow. rewrite find_app.
    destruct (List.find mine before) as [r|] eqn:Hfind.
    + apply List.find_some in Hfind as [Hin Hr]. rewrite Forall_forall in Hbefore.
      rewrite Hbefore in Hr by now apply list_elem_of_In. discriminate.
    + simpl. now rewrite Hrow.
  - intros row. cbn [fst].
    destruct (List.find mine _) as [r|] eqn:Hfind; [|discriminate].
    intros [= ->]. apply List.find_some in Hfind as [Hin Hr]. split; [exact Hin|].
    unfold mine, field_is in Hr. destruct (row !! "window_id") as [v|]; [eauto|discriminate].
Qed.

(** X25: [_TMUX] raises exactly when no row of [server._windows] has
    the stored id; what it raises is [IndexError], and it changes
    nothing. *)
Theorem _TMUX_index_error (self : Window) (st : State) :
  ((exists e, (_TMUX self st).1 = Raise e) <->
   Forall (fun r => field_is "window_id" (_window_id self) r = false)
     (server_windows (server self) (world st)))
  /\ (forall e, (_TMUX self st).1 = Raise e -> e = IndexError)
  /\ (_TMUX self st).2 = st.
Proof.
  rewrite _TMUX_find. cbn [fst snd].
  destruct (List.find _ _) as [r|] eqn:Hfind.
  - repeat split; try discriminate.
    + intros [e He]. discriminate.
    + intros Hall. apply List.find_some in Hfind as [Hin Hr].
      rewrite Forall_forall in Hall. rewrite Hall in Hr by now apply list_elem_of_In.
      discriminate.
  - repeat split; eauto.
    + intros _. apply Forall_forall. intros r Hr.
      apply list_elem_of_In in Hr. apply (List.find_none _ _ Hfind) in Hr. exact Hr.
    + intros e [= <-]. reflexivity.
Qed.

End RowFacts.

(** ** Empty output *)

Section Empty.
Context `{Collaborators}.

(** X27: on an empty stdout [show_window_options] returns the empty
    dictionary while [show_window_option] returns [None]. *)
Theorem show_nothing (self : Window) (option name : pyval) (st : State)
    (p : Process) (w1 w2 : World) :
  truthy option = false ->
  stdout p = [] ->
  server_tmux (server self) [PStr "show-window-options"] (world st) = (Ok p, w1) ->
  server_tmux (server self) [PStr "show-window-options"; name] (world st)
    = (Ok p, w2) ->
  (show_window_options self option st).1 = Ok (AllOptions ∅)
  /\ (show_window_option self name st).1 = Ok PNone.
Proof.
  intros Hopt Hout Htmux1 Htmux2. split.
  - rewrite (show_window_options_run _ _ _ _ _ Hopt Htmux1), Hout. reflexivity.
  - unfold show_window_option, bind, tmux, server_call. now rewrite Htmux2, Hout.
Qed.

End Empty.

(** ** Further runs on the scripted servers *)

(** The integer 80 of the dictionary comes from the line [main-pane-width 80]. *)
Lemma show_window_options_entries_witness :
  exists line s,
    In line ["mode-keys vi"; "main-pane-width 80"] /\
    split " " line = ["main-pane-width"; s] /\
    @coerce Scripted.collaborators s = Ok (PInt 80).
Proof.
  apply (proj1 (show_window_options_entries Scripted.win PNone
                  (Scripted.start (Scripted.prints ["mode-keys vi"; "main-pane-width 80"]) [])
                  (Scripted.prints ["mode-keys vi"; "main-pane-width 80"]) _
                  {[ "mode-keys" := PStr "vi"; "main-pane-width" := PInt 80 ]}
                  eq_refl eq_refl eq_refl)
           "main-pane-width" (PInt 80)).
  reflexivity.
Defined.

(** The entry [main-pane-width: 80] has a key without a space and an
    integer value that [int] returned. *)
Lemma show_window_options_values_witness :
  occurs " " "main-pane-width" = false /\
  ((exists s n, PInt 80 = PInt n /\ @isdigit Scripted.collaborators s = true /\
                @int Scripted.collaborators s = Ok n /\ occurs " " s = false) \/
   (exists s, PInt 80 = PStr s /\ @isdigit Scripted.collaborators s = false /\
              occurs " " s = false)).
Proof.
  apply (show_window_options_values Scripted.win PNone
           (Scripted.start (Scripted.prints ["mode-keys vi"; "main-pane-width 80"]) [])
           (Scripted.prints ["mode-keys vi"; "main-pane-width 80"]) _
           {[ "mode-keys" := PStr "vi"; "main-pane-width" := PInt 80 ]}
           eq_refl eq_refl eq_refl
           "main-pane-width" (PInt 80)).
  reflexivity.
Defined.

(** Of two lines for [mode-keys], the second decides. *)
Lemma show_window_options_last_witness :
  exists v, @coerce Scripted.collaborators "emacs" = Ok v /\
    ({[ "mode-keys" := PStr "emacs" ]} : dict) !! "mode-keys" = Some v.
Proof.
  apply (show_window_options_last Scripted.win PNone
           (Scripted.start (Scripted.prints ["mode-keys vi"; "mode-keys emacs"]) [])
           (Scripted.prints ["mode-keys vi"; "mode-keys emacs"]) _
           {[ "mode-keys" := PStr "emacs" ]}
           ["mode-keys vi"] [] "mode-keys emacs" "mode-keys" "emacs"
           eq_refl eq_refl eq_refl eq_refl eq_refl).
  intros later s' [].
Defined.

(** Both methods give 80 for [main-pane-width]. *)
Lemma show_methods_agree_witness :
  exists v,
    (show_window_option Scripted.win (PStr "main-pane-width")
       (Scripted.start (Scripted.prints ["main-pane-width 80"; "mode-keys vi"]) [])).1
      = Ok v /\
    ({[ "main-pane-width" := PInt 80; "mode-keys" := PStr "vi" ]} : dict)
      !! "main-pane-width" = Some v.
Proof.
  apply (show_methods_agree Scripted.win PNone (PStr "main-pane-width")
           (Scripted.start (Scripted.prints ["main-pane-width 80"; "mode-keys vi"]) [])
           (Scripted.prints ["main-pane-width 80"; "mode-keys vi"]) _ _
           {[ "main-pane-width" := PInt 80; "mode-keys" := PStr "vi" ]}
           "main-pane-width 80" "main-pane-width" "80" ["mode-keys vi"]
           eq_refl eq_refl eq_refl eq_refl eq_refl eq_refl).
  intros later s' [<-|[]] Hs. discriminate Hs.
Defined.

(** A pane row without a session id makes the listing raise. *)
Lemma list_panes_missing_key_witness :
  (list_panes Scripted.win
     (Scripted.start (Scripted.prints [])
        [Scripted.pane_row "$0" "@1" "%1"; {[ "window_id" := PStr "@1" ]}])).1
  = Raise (KeyError "session_id").
Proof.
  apply (proj1 (list_panes_missing_key Scripted.win
     (Scripted.start (Scripted.prints [])
        [Scripted.pane_row "$0" "@1" "%1"; {[ "window_id" := PStr "@1" ]}])
     [Scripted.pane_row "$0" "@1" "%1"; {[ "window_id" := PStr "@1" ]}]
     _ (PStr "$0") (PStr "@1") eq_refl eq_refl eq_refl)).
  right. left. reflexivity.
Defined.

(** A row of session [$9] without a window id is dropped silently. *)
Lemma list_panes_other_sessions_witness :
  (_list_panes Scripted.win
     (Scripted.start (Scripted.prints [])
        [{[ "session_id" := PStr "$9" ]}; Scripted.pane_row "$0" "@1" "%1"])).1
  = Ok [Scripted.pane_row "$0" "@1" "%1"].
Proof.
  etransitivity;
    [exact (f_equal fst (list_panes_other_sessions Scripted.win
       (Scripted.start (Scripted.prints [])
          [{[ "session_id" := PStr "$9" ]}; Scripted.pane_row "$0" "@1" "%1"])
       [{[ "session_id" := PStr "$9" ]}; Scripted.pane_row "$0" "@1" "%1"]
       _ (PStr "$0") (PStr "@1") eq_refl eq_refl eq_refl
       ltac:(repeat constructor; simpl; eauto)
       ltac:(repeat constructor; simpl; first [discriminate|eauto])))|].
  reflexivity.
Defined.

(** A server without panes. *)
Lemma list_panes_empty_witness :
  (list_panes Scripted.win (Scripted.start (Scripted.prints []) [])).1 = Ok [] /\
  (attached_pane Scripted.win (Scripted.start (Scripted.prints []) [])).1 = Ok None.
Proof.
  destruct (list_panes_empty Scripted.win (Scripted.start (Scripted.prints []) []) _
              eq_refl) as [Hl Ha].
  split; [exact (f_equal fst Hl)|exact (f_equal fst Ha)].
Defined.

(** The second pane is the active one. *)
Lemma attached_pane_first_active_witness :
  (attached_pane Scripted.win
     (Scripted.start (Scripted.prints [])
        [Scripted.pane_row "$0" "@1" "%1";
         <["pane_active" := PStr "1"]> (Scripted.pane_row "$0" "@1" "%2")])).1
  = Ok (Some (<["pane_active" := PStr "1"]> (Scripted.pane_row "$0" "@1" "%2"))).
Proof.
  etransitivity;
    [exact (f_equal fst
       (proj2 (attached_pane_first_active Scripted.win
          (Scripted.start (Scripted.prints [])
             [Scripted.pane_row "$0" "@1" "%1";
              <["pane_active" := PStr "1"]> (Scripted.pane_row "$0" "@1" "%2")])
          _
          [Scripted.pane_row "$0" "@1" "%1";
           <["pane_active" := PStr "1"]> (Scripted.pane_row "$0" "@1" "%2")]
          eq_refl)
          [Scripted.pane_row "$0" "@1" "%1"]
          (<["pane_active" := PStr "1"]> (Scripted.pane_row "$0" "@1" "%2")) []
          eq_refl ltac:(repeat constructor) eq_refl))|].
  reflexivity.
Defined.

(** The tmux invocation raises [OSError]: the window row keeps its
    single field and the windows are refreshed.  It raises
    [KeyboardInterrupt]: the interrupt comes out and nothing is
    refreshed. *)
Lemma rename_window_tmux_raises_witness :
  rename_window Failing.win "logs"
    (Failing.start [] {[ "window_id" := PStr "@1" ]}) =
  (Ok Failing.win,
   {| world := world (Failing.start [] {[ "window_id" := PStr "@1" ]});
      trace := [CallTmux [PStr "rename-window"; PStr "-t$0:@1"; PStr "logs"];
                CallUpdateWindows] |}) /\
  rename_window Failing.win "logs"
    (Failing.interrupted [] {[ "window_id" := PStr "@1" ]}) =
  (Raise (BaseException "KeyboardInterrupt"),
   {| world := world (Failing.interrupted [] {[ "window_id" := PStr "@1" ]});
      trace := [CallTmux [PStr "rename-window"; PStr "-t$0:@1"; PStr "logs"]] |}).
Proof.
  split.
  - etransitivity;
      [exact (rename_window_tmux_raises Failing.win "logs" "$0:@1"
                (Failing.start [] {[ "window_id" := PStr "@1" ]}) _
                (OtherError "OSError") _ eq_refl eq_refl)|].
    reflexivity.
  - etransitivity;
      [exact (rename_window_tmux_raises Failing.win "logs" "$0:@1"
                (Failing.interrupted [] {[ "window_id" := PStr "@1" ]}) _
                (BaseException "KeyboardInterrupt") _ eq_refl eq_refl)|].
    reflexivity.
Defined.

(** No row for the window: only the refresh is called. *)
Lemma rename_window_no_target_witness :
  rename_window Failing.win "logs" (Failing.start [] ∅) =
  (Ok Failing.win,
   {| world := world (Failing.start [] ∅); trace := [CallUpdateWindows] |}).
Proof.
  exact (rename_window_no_target Failing.win "logs" (Failing.start [] ∅) _
           IndexError eq_refl).
Defined.

(** With an empty stderr the active pane is looked up after the call. *)
Lemma select_pane_then_attached_witness :
  select_pane Scripted.win (PStr "%2")
    (Scripted.start (Scripted.prints []) [Scripted.pane_row "$0" "@1" "%1"]) =
  attached_pane Scripted.win
    {| world := world (Scripted.start (Scripted.prints [])
                         [Scripted.pane_row "$0" "@1" "%1"]);
       trace := [CallTmux [PStr "select-pane"; PStr "-t%2"]] |}.
Proof.
  exact (select_pane_then_attached Scripted.win (PStr "%2")
           (Scripted.start (Scripted.prints []) [Scripted.pane_row "$0" "@1" "%1"])
           (Scripted.prints []) _ eq_refl).
Defined.

(** An empty stderr: the method returns [None]. *)
Lemma set_window_option_none_iff_witness :
  (set_window_option Scripted.win (PStr "automatic-rename") (PBool false)
     (Scripted.start (Scripted.prints []) [])).1 = Ok tt.
Proof.
  apply (proj1 (set_window_option_none_iff Scripted.win (PStr "automatic-rename")
                  (PBool false) (Scripted.start (Scripted.prints []) [])
                  (PStr "@1") _ _ (Scripted.prints []) eq_refl eq_refl)).
  reflexivity.
Defined.

(** No row for the window: the exception of the lookup comes out. *)
Lemma set_window_option_no_id_witness :
  set_window_option Failing.win (PStr "automatic-rename") (PBool false)
    (Failing.start [] ∅) =
  (Raise IndexError, {| world := world (Failing.start [] ∅); trace := [] |}).
Proof.
  exact (set_window_option_no_id Failing.win (PStr "automatic-rename") (PBool false)
           (Failing.start [] ∅) IndexError _ eq_refl).
Defined.

(** A session row without an id. *)
Lemma target_of_missing_ids_witness :
  (target Scripted.win
     (@Build_State Scripted.collaborators
        {| Scripted.reply := Scripted.prints []; Scripted.pane_rows := [];
           Scripted.window_row := {[ "window_id" := PStr "@1" ]};
           Scripted.session_row := ∅ |} [])).1 = Ok "None:@1".
Proof.
  exact (proj1 (target_of_missing_ids Scripted.win PNone
           (@Build_State Scripted.collaborators
              {| Scripted.reply := Scripted.prints []; Scripted.pane_rows := [];
                 Scripted.window_row := {[ "window_id" := PStr "@1" ]};
                 Scripted.session_row := ∅ |} [])
           (PStr "@1") _ _ eq_refl eq_refl)).
Defined.

(** The only pane of the server belongs to window [@2]. *)
Lemma split_window_no_panes_witness :
  split_window Scripted.win (PBool true)
    (Scripted.start (Scripted.prints []) [Scripted.pane_row "$0" "@2" "%7"]) =
  (Raise IndexError,
   {| world := world (Scripted.start (Scripted.prints [])
                        [Scripted.pane_row "$0" "@2" "%7"]);
      trace := [CallUpdatePanes] |}).
Proof.
  exact (proj1 (split_window_no_panes Scripted.win (PBool true)
           (Scripted.start (Scripted.prints []) [Scripted.pane_row "$0" "@2" "%7"])
           _ eq_refl)).
Defined.

(** The subprocess prints nothing. *)
Lemma split_window_no_output_witness :
  (split_window Scripted.win (PBool true)
     (Scripted.start (Scripted.prints []) [Scripted.pane_row "$0" "@1" "%1"])).1
  = Raise IndexError.
Proof.
  exact (f_equal fst
    (split_window_no_output Scripted.win (PBool true)
       (Scripted.start (Scripted.prints []) [Scripted.pane_row "$0" "@1" "%1"])
       {| world := world (Scripted.start (Scripted.prints [])
                            [Scripted.pane_row "$0" "@1" "%1"]);
          trace := [CallUpdatePanes] |}
       (Scripted.pane_row "$0" "@1" "%1" : @Pane Scripted.collaborators) []
       (PStr "%1") _ _ (Scripted.prints [])
       eq_refl eq_refl eq_refl eq_refl eq_refl)).
Defined.

(** [attach=False] adds [-d]. *)
Lemma split_window_detach_witness :
  In (PStr "-d")
    ([PStr "split-window"; PStr ("-t" +:+ py_str (PStr "%1")); PStr "-P";
      PStr ("-F" +:+ join (map (fun f => "#{" +:+ f +:+ "}" +:+ tab)
                             (["session_name"; "session_id"; "window_index";
                               "window_id"] ++ @PANE_FORMATS Scripted.collaborators)))]
     ++ (if truthy (PBool false) then [] else [PStr "-d"])).
Proof.
  apply (proj2 (split_window_detach Scripted.win (PBool false)
     (Scripted.start (Scripted.prints []) [Scripted.pane_row "$0" "@1" "%1"])
     {| world := world (Scripted.start (Scripted.prints [])
                          [Scripted.pane_row "$0" "@1" "%1"]);
        trace := [CallUpdatePanes] |}
     (Scripted.pane_row "$0" "@1" "%1" : @Pane Scripted.collaborators) []
     (PStr "%1") _ eq_refl eq_refl)).
  reflexivity.
Defined.

(** The eight names of the scripted server. *)
Lemma split_window_format_fields_witness :
  split tab_char
    (join (map (fun f => "#{" +:+ f +:+ "}" +:+ tab)
             (@pformats Scripted.collaborators))) =
  map (fun f => "#{" +:+ f +:+ "}") (@pformats Scripted.collaborators) ++ [""].
Proof.
  apply (@split_window_format_fields Scripted.collaborators).
  repeat constructor.
Defined.

(** The session id of a printed line. *)
Lemma split_window_kwargs_witness :
  In "session_id" (@pformats Scripted.collaborators) /\
  exists s, PStr "$0" = PStr s /\ s <> "" /\
            In s (split tab_char ("main" +:+ tab +:+ "$0" +:+ tab +:+ "" +:+ tab +:+ "@1"))
            /\ occurs tab_char s = false.
Proof.
  apply (@split_window_kwargs Scripted.collaborators
           ("main" +:+ tab +:+ "$0" +:+ tab +:+ "" +:+ tab +:+ "@1")
           "session_id" (PStr "$0")).
  reflexivity.
Defined.

(** A line of two fields binds no window id. *)
Lemma split_window_short_line_witness :
  drop_empty (dict_zip (@pformats Scripted.collaborators)
                (split tab_char ("main" +:+ tab +:+ "$0")) ∅) !! "window_id" = None.
Proof.
  apply (@split_window_short_line Scripted.collaborators
           ("main" +:+ tab +:+ "$0") 3 "window_id").
  - repeat (constructor; [simpl; intuition discriminate|]). constructor.
  - reflexivity.
  - simpl. lia.
Defined.

(** No output at all. *)
Lemma show_nothing_witness :
  (show_window_options Scripted.win PNone
     (Scripted.start (Scripted.prints []) [])).1 = Ok (AllOptions ∅) /\
  (show_window_option Scripted.win (PStr "mode-keys")
     (Scripted.start (Scripted.prints []) [])).1 = Ok PNone.
Proof.
  exact (show_nothing Scripted.win PNone (PStr "mode-keys")
           (Scripted.start (Scripted.prints []) []) (Scripted.prints []) _ _
           eq_refl eq_refl eq_refl eq_refl).
Defined.
